(** * Bank: account creation, deposit, withdrawal and balance lookup

    A shallow embedding of the [Bank] class (accounts held in a mutable
    array of mutable account objects) together with the properties of
    its four public operations.

    Modelling choices.
    - A TypeScript [number] is an integer ([Z]): the embedding covers
      integer-valued numbers in the range where JavaScript arithmetic
      is exact; there [+], [-], [<], [<=] and [===] are the integer
      operations and [toString()] is the usual decimal rendering, with
      a leading minus sign for negative values.
    - Account objects live in a store indexed by references ([loc]);
      the [accounts] array holds references, so that an object listed
      twice, or returned to the caller, is the same mutable object.
    - [throw new Error(msg)] is an exceptional outcome carrying the
      message and the state reached when it was thrown.
    - What depends on rounding, on NaN or on the infinities is stated
      over a second embedding of the class, [Binary64], in which a
      [number] is an IEEE 754 binary64 value. *)

From Stdlib Require Import ZArith List String Ascii Bool Lia Arith Floats.
Import ListNotations.

Local Open Scope string_scope.
Local Open Scope list_scope.
Local Open Scope Z_scope.

(** ** Numbers and their decimal rendering *)

Definition number := Z.

Module NumberToString.

Definition digitChar (d : Z) : ascii := ascii_of_nat (48 + Z.to_nat d).

(** Decimal digits of a non-negative integer, most significant first.
    [fuel] bounds the number of digits produced. *)
Fixpoint digitsOf (fuel : nat) (n : Z) : string :=
  match fuel with
  | O => EmptyString
  | S f =>
      if n <? 10 then String (digitChar n) EmptyString
      else (digitsOf f (n / 10)
            ++ String (digitChar (n mod 10)) EmptyString)%string
  end.

(** One more than the position of the highest binary digit: never
    fewer than the number of decimal digits. *)
Definition fuelFor (n : Z) : nat := S (Z.to_nat (Z.log2 n)).

Definition digits (n : Z) : string := digitsOf (fuelFor n) n.

(** [Number.prototype.toString()] on an integer value. *)
Definition toString (n : number) : string :=
  if n <? 0 then String "-" (digits (- n)) else digits n.

End NumberToString.
Import NumberToString.

(** The spec's notion of a 10-digit number: a number written with
    exactly ten decimal digits. *)
Definition tenDigits (n : number) : Prop := 10 ^ 9 <= n < 10 ^ 10.

(** ** Account objects, the store and the Bank instance *)

Definition loc := nat.

Record AccountType := mkAccount { id : number; balance : number }.

(** The store maps every reference to the account object it denotes. *)
Definition Store := loc -> AccountType.

Definition update (h : Store) (l : loc) (v : AccountType) : Store :=
  fun l' => if Nat.eqb l' l then v else h l'.

(** The two private fields of the class. [accounts] is an array of
    references to account objects. *)
Record Bank := mkBank { accounts : list loc; usernames : list string }.

Record State := mkState { store : Store; this : Bank }.

(** The account object behind a reference, in a given state. *)
Definition deref (s : State) (l : loc) : AccountType := store s l.

(** The account objects of the collection, in the array's order. *)
Definition accountsOf (s : State) : list AccountType :=
  map (store s) (accounts (this s)).

(** ** Exceptions and the computation monad *)

Record Error := mkError { message : string }.

Inductive Outcome (A : Type) : Type :=
| Return (a : A) (s : State)
| Throw (e : Error) (s : State).
Arguments Return {A} a s.
Arguments Throw {A} e s.

Definition M (A : Type) : Type := State -> Outcome A.

Definition ret {A} (a : A) : M A := fun s => Return a s.

Definition bind {A B} (m : M A) (k : A -> M B) : M B :=
  fun s =>
    match m s with
    | Return a s' => k a s'
    | Throw e s' => Throw e s'
    end.

Definition throw {A} (e : Error) : M A := fun s => Throw e s.

(** [if (c) { m }] *)
Definition when_ (c : bool) (m : M unit) : M unit :=
  if c then m else ret tt.

Declare Scope bank_scope.
Delimit Scope bank_scope with bank.
Notation "x <- m ;; k" := (bind m (fun x => k))
  (at level 61, m at next level, right associativity) : bank_scope.
Notation "m ;; k" := (bind m (fun _ => k))
  (at level 61, right associativity) : bank_scope.
Local Open Scope bank_scope.

(** The error kinds of the spec, and the kind of each thrown message. *)
Inductive ErrorKind : Type :=
| InvalidAccountNumber
| UnknownUser
| UnderageUser
| DuplicateAccount
| AccountNotFound
| InvalidAmount
| InsufficientFunds.

Definition kindOf (e : Error) : option ErrorKind :=
  let m := message e in
  if String.eqb m "Invalid account number" then Some InvalidAccountNumber
  else if String.eqb m "User not found" then Some UnknownUser
  else if String.eqb m "User is under 18" then Some UnderageUser
  else if String.eqb m "Account already exists" then Some DuplicateAccount
  else if String.eqb m "Account not found" then Some AccountNotFound
  else if String.eqb m "Invalid deposit amount" then Some InvalidAmount
  else if String.eqb m "Invalid withdrawal amount" then Some InvalidAmount
  else if String.eqb m "Insufficient funds" then Some InsufficientFunds
  else None.

(** [failsWith o k s]: the call threw an error of kind [k], and [s] is
    the state it left behind. *)
Definition failsWith {A} (o : Outcome A) (k : ErrorKind) (s : State) : Prop :=
  exists e, o = Throw e s /\ kindOf e = Some k.

(** ** Primitive accesses to the store and to the instance *)

(** A reference no element of the array holds. *)
Definition freshLoc (ls : list loc) : loc := S (list_max ls).

(** Object literal [{ id: ..., balance: ... }]: a new object, distinct
    from every object of the collection. *)
Definition newObject (v : AccountType) : M loc :=
  fun s =>
    let l := freshLoc (accounts (this s)) in
    Return l (mkState (update (store s) l v) (this s)).

(** [this.accounts.push(account)] *)
Definition push (l : loc) : M unit :=
  fun s =>
    Return tt (mkState (store s)
                 (mkBank (accounts (this s) ++ [l]) (usernames (this s)))).

(** [account.balance] *)
Definition readBalance (l : loc) : M number :=
  fun s => Return (balance (store s l)) s.

(** [account.balance = v] *)
Definition writeBalance (l : loc) (v : number) : M unit :=
  fun s =>
    Return tt (mkState (update (store s) l (mkAccount (id (store s l)) v))
                 (this s)).

(** ** The class *)

(** Field initialisers: both arrays start empty. *)
Definition instantiate (h : Store) : State := mkState h (mkBank [] []).

Definition constructor (accts : list loc) (names : list string) : M unit :=
  fun s => Return tt (mkState (store s) (mkBank accts names)).

(** [new Bank(accounts, usernames)] over a store [h]. *)
Definition newBank (accts : list loc) (names : list string) (h : Store)
  : Outcome unit :=
  constructor accts names (instantiate h).

(** [this.accounts.find((account) => account.id === id)] *)
Definition findAccountById (i : number) : M (option loc) :=
  fun s => Return (find (fun l => id (store s l) =? i) (accounts (this s))) s.

Definition isAccountNumberInvalid (accountNumber : number) : bool :=
  negb (Nat.eqb (String.length (toString accountNumber)) 10).

(** [this.usernames.includes(username)] *)
Definition isUsernameExisits (username : string) : M bool :=
  fun s => Return (existsb (String.eqb username) (usernames (this s))) s.

Definition isFound (r : option loc) : bool :=
  match r with Some _ => true | None => false end.

Definition createAccount (username : string) (age accountNumber : number)
  : M loc :=
  when_ (isAccountNumberInvalid accountNumber)
        (throw (mkError "Invalid account number")) ;;
  known <- isUsernameExisits username ;;
  when_ (negb known) (throw (mkError "User not found")) ;;
  when_ (age <? 18) (throw (mkError "User is under 18")) ;;
  found <- findAccountById accountNumber ;;
  when_ (isFound found) (throw (mkError "Account already exists")) ;;
  account <- newObject (mkAccount accountNumber 0) ;;
  push account ;;
  ret account.

Definition deposit (accountId amount : number) : M loc :=
  found <- findAccountById accountId ;;
  match found with
  | None => throw (mkError "Account not found")
  | Some account =>
      when_ (amount <=? 0) (throw (mkError "Invalid deposit amount")) ;;
      b <- readBalance account ;;
      writeBalance account (b + amount) ;;
      ret account
  end.

Definition withdraw (accountId amount : number) : M loc :=
  found <- findAccountById accountId ;;
  match found with
  | None => throw (mkError "Account not found")
  | Some account =>
      when_ (amount <=? 0) (throw (mkError "Invalid withdrawal amount")) ;;
      b <- readBalance account ;;
      when_ (b <? amount) (throw (mkError "Insufficient funds")) ;;
      b' <- readBalance account ;;
      writeBalance account (b' - amount) ;;
      ret account
  end.

Definition getBalance (accountId : number) : M number :=
  found <- findAccountById accountId ;;
  match found with
  | None => throw (mkError "Account not found")
  | Some account => readBalance account
  end.

(** ** The seed data of the test script *)

Module Seed.

Definition emptyStore : Store := fun _ => mkAccount 0 0.

Definition seedStore : Store :=
  update (update emptyStore 0%nat (mkAccount 1234567890 5000))
         1%nat (mkAccount 1234567891 10000).

Definition bank : State :=
  mkState seedStore (mkBank [0%nat; 1%nat] ["user1"; "user2"]).

End Seed.

(** The value or the message of an outcome, with the resulting
    collection. *)
Definition observe {A} (o : Outcome A) : (A + string) * list AccountType :=
  match o with
  | Return a s => (inl a, accountsOf s)
  | Throw e s => (inr (message e), accountsOf s)
  end.

(** ** The data model of the spec *)

Definition balancesNonNegative (s : State) : Prop :=
  Forall (fun a => 0 <= balance a) (accountsOf s).

Definition idsTenDigits (s : State) : Prop :=
  Forall (fun a => tenDigits (id a)) (accountsOf s).

Definition idsDistinct (s : State) : Prop :=
  NoDup (map id (accountsOf s)).

Definition dataModelInvariant (s : State) : Prop :=
  balancesNonNegative s /\ idsTenDigits s /\ idsDistinct s.

(** Every id of the collection passes the test [createAccount] applies
    to account numbers. *)
Definition idsAccepted (s : State) : Prop :=
  Forall (fun a => isAccountNumberInvalid (id a) = false) (accountsOf s).

(** The invariant with the id test of the code in place of the digit
    count. *)
Definition checkedInvariant (s : State) : Prop :=
  balancesNonNegative s /\ idsAccepted s /\ idsDistinct s.

Definition hasAccount (s : State) (i : number) : Prop :=
  exists l, In l (accounts (this s)) /\ id (deref s l) = i.

Definition noAccount (s : State) (i : number) : Prop :=
  forall l, In l (accounts (this s)) -> id (deref s l) <> i.

Definition registered (s : State) (username : string) : Prop :=
  In username (usernames (this s)).

(** ** Calls and their traces *)

Inductive Call : Type :=
| CreateAccount (username : string) (age accountNumber : number)
| Deposit (accountId amount : number)
| Withdraw (accountId amount : number)
| GetBalance (accountId : number).

Inductive Value : Type :=
| AccountRef (l : loc)
| Number (n : number).

Definition mapOutcome {A B} (f : A -> B) (o : Outcome A) : Outcome B :=
  match o with
  | Return a s => Return (f a) s
  | Throw e s => Throw e s
  end.

Definition run (c : Call) (s : State) : Outcome Value :=
  match c with
  | CreateAccount u a n => mapOutcome AccountRef (createAccount u a n s)
  | Deposit i amt => mapOutcome AccountRef (deposit i amt s)
  | Withdraw i amt => mapOutcome AccountRef (withdraw i amt s)
  | GetBalance i => mapOutcome Number (getBalance i s)
  end.

Definition finalState {A} (o : Outcome A) : State :=
  match o with
  | Return _ s => s
  | Throw _ s => s
  end.

(** The state a caller that catches every error is left with. *)
Definition perform (c : Call) (s : State) : State := finalState (run c s).

Definition performAll (cs : list Call) (s : State) : State :=
  fold_left (fun s c => perform c s) cs s.

Definition nonNegativeNumber (c : Call) : Prop :=
  match c with
  | CreateAccount _ _ n => 0 <= n
  | _ => True
  end.

(** The kind of the error a call reported, if it reported one. *)
Definition reportedKind {A} (o : Outcome A) : option ErrorKind :=
  match o with
  | Return _ _ => None
  | Throw e _ => kindOf e
  end.

(** What the caller gets back: the value returned or the error
    thrown. *)
Definition answer {A} (o : Outcome A) : A + Error :=
  match o with
  | Return a _ => inl a
  | Throw e _ => inr e
  end.

(** ** The preconditions of [createAccount] as the spec lists them *)

Definition tenDigitsb (n : number) : bool := (10 ^ 9 <=? n) && (n <? 10 ^ 10).

(** The first failing check of an ordered list of checks decides the
    error. *)
Definition firstFailing (checks : list (bool * ErrorKind))
  : option ErrorKind :=
  match find (fun c => negb (fst c)) checks with
  | Some c => Some (snd c)
  | None => None
  end.

Definition specPreconditions (s : State) (username : string)
    (age accountNumber : number) : list (bool * ErrorKind) :=
  [ (tenDigitsb accountNumber, InvalidAccountNumber);
    (existsb (String.eqb username) (usernames (this s)), UnknownUser);
    (18 <=? age, UnderageUser);
    (negb (existsb (fun a => id a =? accountNumber) (accountsOf s)),
     DuplicateAccount) ].

(** The same list with the account-number test of the code. *)
Definition codePreconditions (s : State) (username : string)
    (age accountNumber : number) : list (bool * ErrorKind) :=
  [ (negb (isAccountNumberInvalid accountNumber), InvalidAccountNumber);
    (existsb (String.eqb username) (usernames (this s)), UnknownUser);
    (18 <=? age, UnderageUser);
    (negb (existsb (fun a => id a =? accountNumber) (accountsOf s)),
     DuplicateAccount) ].

(** ** Snapshots the constructor is given *)

Module Unvalidated.

Definition overdrawnStore : Store :=
  update Seed.emptyStore 0%nat (mkAccount 1234567890 (-50)).

Definition shortIdStore : Store :=
  update Seed.emptyStore 0%nat (mkAccount 42 10).

Definition twinsStore : Store :=
  update (update Seed.emptyStore 0%nat (mkAccount 1234567890 100))
         1%nat (mkAccount 1234567890 7).

Definition overdrawn : State := mkState overdrawnStore (mkBank [0%nat] []).

Definition shortId : State := mkState shortIdStore (mkBank [0%nat] []).

Definition twins : State := mkState twinsStore (mkBank [0%nat; 1%nat] []).

(** The same account object listed twice. *)
Definition listedTwice : State :=
  mkState overdrawnStore (mkBank [0%nat; 0%nat] []).

End Unvalidated.
(** ** Totals and targets *)

(** The integers from -2^53 to 2^53: each is a binary64 value, and
    sums and differences that stay in this range are computed
    exactly. *)
Definition safeInteger (n : number) : Prop := - 2 ^ 53 <= n <= 2 ^ 53.

(** The sum of the balances over the entries of the collection. *)
Definition totalBalance (s : State) : number :=
  fold_right Z.add 0 (map balance (accountsOf s)).

(** The id a call names. *)
Definition target (c : Call) : number :=
  match c with
  | CreateAccount _ _ n => n
  | Deposit i _ => i
  | Withdraw i _ => i
  | GetBalance i => i
  end.

(** ** The test script *)

Module Tests.

(** The bank and what has been printed so far. *)
Record World := mkWorld { bankOf : State; console : list string }.

Inductive Completion (A : Type) : Type :=
| Normal (a : A) (w : World)
| Uncaught (e : Error) (w : World).
Arguments Normal {A} a w.
Arguments Uncaught {A} e w.

Definition Script (A : Type) : Type := World -> Completion A.

Definition done {A} (a : A) : Script A := fun w => Normal a w.

Definition andThen {A B} (p : Script A) (k : A -> Script B) : Script B :=
  fun w =>
    match p w with
    | Normal a w' => k a w'
    | Uncaught e w' => Uncaught e w'
    end.

(** A call of a method of [bank]. *)
Definition call {A} (m : M A) : Script A :=
  fun w =>
    match m (bankOf w) with
    | Return a s => Normal a (mkWorld s (console w))
    | Throw e s => Uncaught e (mkWorld s (console w))
    end.

(** [console.log(line)] *)
Definition log (line : string) : Script unit :=
  fun w => Normal tt (mkWorld (bankOf w) (console w ++ [line])).

(** [acc.id], [acc.balance] *)
Definition field (f : AccountType -> number) (l : loc) : Script number :=
  fun w => Normal (f (store (bankOf w) l)) w.

(** [try { body } catch (e) { handler }] *)
Definition tryCatch (body : Script unit) (handler : Error -> Script unit)
  : Script unit :=
  fun w =>
    match body w with
    | Normal a w' => Normal a w'
    | Uncaught e w' => handler e w'
    end.

Declare Scope script_scope.
Delimit Scope script_scope with script.
Notation "x <- p ;; k" := (andThen p (fun x => k))
  (at level 61, p at next level, right associativity) : script_scope.
Notation "p ;; k" := (andThen p (fun _ => k))
  (at level 61, right associativity) : script_scope.

(** A line that starts with a line feed, as ["\nTesting Deposit:"]. *)
Definition afterBlankLine (line : string) : string :=
  String (ascii_of_nat 10) line.

(** Scenario 1.1 after its call, and the three scenarios that follow
    it. *)
Definition afterFirstAccount (acc : loc) : Script unit :=
  (accId <- field id acc ;;
   accBalance <- field balance acc ;;
   (if negb (accId =? 1234567892) || negb (accBalance =? 0)
       || negb (Nat.eqb (String.length (toString accId)) 10)
    then log "Account Creation Scenario 1.1 failed"
    else log "Account Creation Scenario 1.1 passed") ;;
   tryCatch
     (call (createAccount "user1" 20 1234567892) ;;
      log "Account Creation Scenario 1.2 failed")
     (fun _ => log "Account Creation Scenario 1.2 passed") ;;
   tryCatch
     (call (createAccount "user1" 17 1234567899) ;;
      log "Account Creation Scenario 2 failed")
     (fun _ => log "Account Creation Scenario 2 passed") ;;
   tryCatch
     (call (createAccount "user3" 20 1234567888) ;;
      log "Account Creation Scenario 3 failed")
     (fun _ => log "Account Creation Scenario 3 passed"))%script.

(** The first call is not inside a [try]. *)
Definition accountCreationTests : Script unit :=
  (log "Testing Account Creation:" ;;
   acc <- call (createAccount "user1" 20 1234567892) ;;
   afterFirstAccount acc)%script.

Definition depositTests : Script unit :=
  (log (afterBlankLine "Testing Deposit:") ;;
   tryCatch
     (updatedAcc <- call (deposit 1234567890 1000) ;;
      updatedBalance <- field balance updatedAcc ;;
      if updatedBalance =? 6000
      then log "Deposit Scenario 1 passed"
      else log "Deposit Scenario 1 failed")
     (fun _ => log "Deposit Scenario 1 failed") ;;
   tryCatch
     (call (deposit 1234567890 (-100)) ;;
      log "Deposit Scenario 2 failed")
     (fun _ => log "Deposit Scenario 2 passed") ;;
   tryCatch
     (call (deposit 9999999999 1000) ;;
      log "Deposit Scenario 3 failed")
     (fun _ => log "Deposit Scenario 3 passed"))%script.

Definition withdrawalTests : Script unit :=
  (log (afterBlankLine "Testing Withdrawal:") ;;
   tryCatch
     (updatedAcc <- call (withdraw 1234567890 1000) ;;
      updatedBalance <- field balance updatedAcc ;;
      if updatedBalance =? 5000
      then log "Withdrawal Scenario 1 passed"
      else log "Withdrawal Scenario 1 failed")
     (fun _ => log "Withdrawal Scenario 1 failed") ;;
   tryCatch
     (call (withdraw 1234567890 10000) ;;
      log "Withdrawal Scenario 2 failed")
     (fun _ => log "Withdrawal Scenario 2 passed") ;;
   tryCatch
     (call (withdraw 1234567890 (-100)) ;;
      log "Withdrawal Scenario 3 failed")
     (fun _ => log "Withdrawal Scenario 3 passed"))%script.

Definition balanceCheckTests : Script unit :=
  (log (afterBlankLine "Testing Balance Check:") ;;
   tryCatch
     (current <- call (getBalance 1234567890) ;;
      if current =? 5000
      then log "Balance Check Scenario 1 passed"
      else log "Balance Check Scenario 1 failed")
     (fun _ => log "Balance Check Scenario 1 failed") ;;
   tryCatch
     (call (getBalance 9999999999) ;;
      log "Balance Check Scenario 2 failed")
     (fun _ => log "Balance Check Scenario 2 passed"))%script.

(** The statements of the script after [bank] is constructed. *)
Definition scenarios : Script unit :=
  (accountCreationTests ;; depositTests ;; withdrawalTests ;;
   balanceCheckTests)%script.

(** The whole script: the two array literals, [new Bank(accounts,
    usernames)], then the scenarios. *)
Definition bankTests : Completion unit :=
  (call (constructor [0%nat; 1%nat] ["user1"; "user2"]) ;; scenarios)%script
    (mkWorld (instantiate Seed.seedStore) []).

Definition printed {A} (c : Completion A) : list string :=
  match c with
  | Normal _ w => console w
  | Uncaught _ w => console w
  end.

Definition uncaught {A} (c : Completion A) : option Error :=
  match c with
  | Normal _ _ => None
  | Uncaught e _ => Some e
  end.

(** A line that reports a failed scenario. *)
Definition reportsFailure (line : string) : bool :=
  let n := String.length line in
  String.eqb (substring (n - 6) 6 line) "failed".

(** [printsLines n p]: from every world, [p] completes normally and
    has added exactly [n] lines to the console. *)
Definition printsLines (n : nat) (p : Script unit) : Prop :=
  forall w,
    exists lines s',
      p w = Normal tt (mkWorld s' (console w ++ lines))
      /\ List.length lines = n.

End Tests.

(** ** The class over binary64 numbers

    The same class with [number] read as an IEEE 754 binary64 value:
    [+] and [-] round to the nearest value, [<], [<=] and [===] are the
    IEEE comparisons (false on NaN), and the values include NaN and the
    two infinities. [toString] is a parameter: the class only measures
    the length of its result. *)

Module Binary64.

Local Open Scope float_scope.

Definition number := float.

Record AccountType := mkAccount { id : number; balance : number }.

Definition Store := loc -> AccountType.

Definition update (h : Store) (l : loc) (v : AccountType) : Store :=
  fun l' => if Nat.eqb l' l then v else h l'.

Record Bank := mkBank { accounts : list loc; usernames : list string }.

Record State := mkState { store : Store; this : Bank }.

Definition deref (s : State) (l : loc) : AccountType := store s l.

Definition accountsOf (s : State) : list AccountType :=
  map (store s) (accounts (this s)).

Inductive Outcome (A : Type) : Type :=
| Return (a : A) (s : State)
| Throw (e : Error) (s : State).
Arguments Return {A} a s.
Arguments Throw {A} e s.

Definition M (A : Type) : Type := State -> Outcome A.

Definition ret {A} (a : A) : M A := fun s => Return a s.

Definition bind {A B} (m : M A) (k : A -> M B) : M B :=
  fun s =>
    match m s with
    | Return a s' => k a s'
    | Throw e s' => Throw e s'
    end.

Definition throw {A} (e : Error) : M A := fun s => Throw e s.

Definition when_ (c : bool) (m : M unit) : M unit :=
  if c then m else ret tt.

Declare Scope binary64_scope.
Delimit Scope binary64_scope with binary64.
Notation "x <- m ;; k" := (bind m (fun x => k))
  (at level 61, m at next level, right associativity) : binary64_scope.
Notation "m ;; k" := (bind m (fun _ => k))
  (at level 61, right associativity) : binary64_scope.
Local Open Scope binary64_scope.

Definition failsWith {A} (o : Outcome A) (k : ErrorKind) (s : State) : Prop :=
  exists e, o = Throw e s /\ kindOf e = Some k.

Definition finalState {A} (o : Outcome A) : State :=
  match o with
  | Return _ s => s
  | Throw _ s => s
  end.

Definition newObject (v : AccountType) : M loc :=
  fun s =>
    let l := freshLoc (accounts (this s)) in
    Return l (mkState (update (store s) l v) (this s)).

Definition push (l : loc) : M unit :=
  fun s =>
    Return tt (mkState (store s)
                 (mkBank (accounts (this s) ++ [l]) (usernames (this s)))).

Definition readBalance (l : loc) : M number :=
  fun s => Return (balance (store s l)) s.

Definition writeBalance (l : loc) (v : number) : M unit :=
  fun s =>
    Return tt (mkState (update (store s) l (mkAccount (id (store s l)) v))
                 (this s)).

(** [this.accounts.find((account) => account.id === id)] *)
Definition findAccountById (i : number) : M (option loc) :=
  fun s => Return (find (fun l => id (store s l) =? i) (accounts (this s))) s.

Definition isUsernameExisits (username : string) : M bool :=
  fun s => Return (existsb (String.eqb username) (usernames (this s))) s.

Definition deposit (accountId amount : number) : M loc :=
  found <- findAccountById accountId ;;
  match found with
  | None => throw (mkError "Account not found")
  | Some account =>
      when_ (amount <=? 0) (throw (mkError "Invalid deposit amount")) ;;
      b <- readBalance account ;;
      writeBalance account (b + amount) ;;
      ret account
  end.

Definition withdraw (accountId amount : number) : M loc :=
  found <- findAccountById accountId ;;
  match found with
  | None => throw (mkError "Account not found")
  | Some account =>
      when_ (amount <=? 0) (throw (mkError "Invalid withdrawal amount")) ;;
      b <- readBalance account ;;
      when_ (b <? amount) (throw (mkError "Insufficient funds")) ;;
      b' <- readBalance account ;;
      writeBalance account (b' - amount) ;;
      ret account
  end.

Definition getBalance (accountId : number) : M number :=
  found <- findAccountById accountId ;;
  match found with
  | None => throw (mkError "Account not found")
  | Some account => readBalance account
  end.

Inductive Call : Type :=
| CreateAccount (username : string) (age accountNumber : number)
| Deposit (accountId amount : number)
| Withdraw (accountId amount : number)
| GetBalance (accountId : number).

Inductive Value : Type :=
| AccountRef (l : loc)
| Number (n : number).

Definition mapOutcome {A B} (f : A -> B) (o : Outcome A) : Outcome B :=
  match o with
  | Return a s => Return (f a) s
  | Throw e s => Throw e s
  end.

Section WithToString.

(** [Number.prototype.toString], applied to the account number. *)
Variable toString : number -> string.

Definition isAccountNumberInvalid (accountNumber : number) : bool :=
  negb (Nat.eqb (String.length (toString accountNumber)) 10).

Definition createAccount (username : string) (age accountNumber : number)
  : M loc :=
  when_ (isAccountNumberInvalid accountNumber)
        (throw (mkError "Invalid account number")) ;;
  known <- isUsernameExisits username ;;
  when_ (negb known) (throw (mkError "User not found")) ;;
  when_ (age <? 18) (throw (mkError "User is under 18")) ;;
  found <- findAccountById accountNumber ;;
  when_ (isFound found) (throw (mkError "Account already exists")) ;;
  account <- newObject (mkAccount accountNumber 0) ;;
  push account ;;
  ret account.

Definition run (c : Call) (s : State) : Outcome Value :=
  match c with
  | CreateAccount u a n => mapOutcome AccountRef (createAccount u a n s)
  | Deposit i amt => mapOutcome AccountRef (deposit i amt s)
  | Withdraw i amt => mapOutcome AccountRef (withdraw i amt s)
  | GetBalance i => mapOutcome Number (getBalance i s)
  end.

Definition perform (c : Call) (s : State) : State := finalState (run c s).

Definition performAll (cs : list Call) (s : State) : State :=
  fold_left (fun s c => perform c s) cs s.

(** Every id of the collection passes the test of [createAccount]. *)
Definition idsAccepted (s : State) : Prop :=
  Forall (fun a => isAccountNumberInvalid (id a) = false) (accountsOf s).

End WithToString.

(** No account of the collection has an id that [===] the id of an
    account after it. *)
Definition idsDistinct (s : State) : Prop :=
  ForallOrdPairs (fun a b => (id a =? id b) = false) (accountsOf s).

(** One account object [{id: n, balance: 0}] was created and appended. *)
Definition accountAdded (s s' : State) (l : loc) (n : number) : Prop :=
  ~ In l (accounts (this s))
  /\ accounts (this s') = accounts (this s) ++ [l]
  /\ usernames (this s') = usernames (this s)
  /\ deref s' l = mkAccount n 0
  /\ forall l', l' <> l -> deref s' l' = deref s l'.

(** The balance of one account object of the collection was assigned
    [v]; nothing else was written. *)
Definition balanceWritten (s s' : State) (l : loc) (v : number) : Prop :=
  In l (accounts (this s))
  /\ this s' = this s
  /\ deref s' l = mkAccount (id (deref s l)) v
  /\ forall l', l' <> l -> deref s' l' = deref s l'.


(** The integer a binary64 value denotes, when it denotes one. *)
Definition integerValue (x : number) : option Z :=
  match Prim2SF x with
  | S754_zero _ => Some 0%Z
  | S754_finite s m e =>
      if (0 <=? e)%Z then Some (cond_Zopp s (Zpos m) * 2 ^ e)%Z
      else if (Zpos m mod 2 ^ (- e) =? 0)%Z
           then Some (cond_Zopp s (Zpos m / 2 ^ (- e)))%Z
           else None
  | _ => None
  end.

(** The rendering of the values that denote an integer; below 10^21
    this is what [toString] returns for them. Other values are not
    rendered. *)
Definition integerToString (x : number) : string :=
  match integerValue x with
  | Some z => NumberToString.toString z
  | None => EmptyString
  end.

(** One account with a balance of 2^53, the first integer whose
    successor is not a binary64 value. *)
Definition large : State :=
  mkState
    (fun _ => mkAccount 1234567890 9007199254740992)
    (mkBank [0%nat] ["user1"]).

(** The seed data of the test script. *)
Definition seed : State :=
  mkState
    (update (fun _ => mkAccount 1234567890 5000) 1%nat
       (mkAccount 1234567891 10000))
    (mkBank [0%nat; 1%nat] ["user1"; "user2"]).

End Binary64.

(** * Properties *)

(** ** Decimal rendering *)

Example toString_seed : toString 1234567890 = "1234567890".
Proof. reflexivity. Qed.

Example toString_zero : toString 0 = "0".
Proof. reflexivity. Qed.

Example toString_negative : toString (-123456789) = "-123456789".
Proof. reflexivity. Qed.

Section DigitCount.

Lemma length_snoc (s : string) (c : ascii) :
  String.length (s ++ String c EmptyString)%string = S (String.length s).
Proof.
  induction s as [|a s IH]; simpl; [reflexivity | now rewrite IH].
Qed.

Lemma digitsOf_nonempty (f : nat) (n : Z) :
  (1 <= String.length (digitsOf (S f) n))%nat.
Proof.
  simpl. destruct (n <? 10); simpl; [lia |]. rewrite length_snoc. lia.
Qed.

Lemma pow10_succ (k : nat) : 10 ^ Z.of_nat (S k) = 10 * 10 ^ Z.of_nat k.
Proof. rewrite Nat2Z.inj_succ, Z.pow_succ_r by lia. reflexivity. Qed.

Lemma pow10_pos (k : nat) : 0 < 10 ^ Z.of_nat k.
Proof. apply Z.pow_pos_nonneg; lia. Qed.

(** With enough fuel, a number is rendered in at most [k] digits
    exactly when it is below [10 ^ k]. *)
Lemma digitsOf_length_le (f : nat) :
  forall (n : Z) (k : nat),
    0 <= n < 10 ^ Z.of_nat f -> (1 <= k)%nat ->
    ((String.length (digitsOf f n) <= k)%nat <-> n < 10 ^ Z.of_nat k).
Proof.
  induction f as [|f IH]; intros n k Hn Hk.
  - simpl in Hn. pose proof (pow10_pos k). simpl. split; intros _; lia.
  - simpl. destruct (Z.ltb_spec n 10) as [Hlt | Hge].
    + simpl. split; intros _; [| lia].
      destruct k as [|k]; [lia |]. rewrite pow10_succ.
      pose proof (pow10_pos k). lia.
    + rewrite length_snoc.
      rewrite pow10_succ in Hn.
      assert (Hq : 0 <= n / 10 < 10 ^ Z.of_nat f).
      { split; [apply Z.div_pos; lia |].
        apply Z.div_lt_upper_bound; lia. }
      destruct k as [|[|k]]; [lia | |].
      * split; [| simpl; lia].
        destruct f as [|f]; [simpl in Hq; lia |].
        pose proof (digitsOf_nonempty f (n / 10)). lia.
      * specialize (IH (n / 10) (S k) Hq ltac:(lia)).
        rewrite (pow10_succ (S k)).
        split; intros H.
        -- assert (n / 10 < 10 ^ Z.of_nat (S k)) by (apply IH; lia).
           pose proof (Z.mul_succ_div_gt n 10 ltac:(lia)). lia.
        -- assert (n / 10 < 10 ^ Z.of_nat (S k))
             by (apply Z.div_lt_upper_bound; lia).
           apply IH in H0. lia.
Qed.

Lemma fuelFor_enough (n : Z) : 0 <= n -> n < 10 ^ Z.of_nat (fuelFor n).
Proof.
  intros Hn. unfold fuelFor.
  destruct (Z.eq_dec n 0) as [-> | Hnz].
  - simpl. lia.
  - pose proof (Z.log2_nonneg n) as Hl.
    destruct (Z.log2_spec n ltac:(lia)) as [_ Hup].
    rewrite Nat2Z.inj_succ, Z2Nat.id by lia.
    eapply Z.lt_le_trans; [exact Hup |].
    apply Z.pow_le_mono_l. lia.
Qed.

Lemma digits_length_le (n : Z) (k : nat) :
  0 <= n -> (1 <= k)%nat ->
  ((String.length (digits n) <= k)%nat <-> n < 10 ^ Z.of_nat k).
Proof.
  intros Hn Hk. unfold digits.
  apply digitsOf_length_le; [| exact Hk].
  split; [exact Hn | apply fuelFor_enough; exact Hn].
Qed.

(** A non-negative number is rendered in exactly [S k] digits when it
    lies in [[10 ^ k, 10 ^ (S k))]; [0] is the one-digit exception. *)
Lemma digits_length_eq (n : Z) (k : nat) :
  0 <= n -> (1 <= k)%nat ->
  (String.length (digits n) = S k <->
   10 ^ Z.of_nat k <= n < 10 ^ Z.of_nat (S k)).
Proof.
  intros Hn Hk.
  pose proof (digits_length_le n k Hn Hk) as H1.
  pose proof (digits_length_le n (S k) Hn ltac:(lia)) as H2.
  split.
  - intros E. split.
    + destruct (Z.lt_ge_cases n (10 ^ Z.of_nat k)) as [Hlt | Hge];
        [apply H1 in Hlt; lia | exact Hge].
    + apply H2. lia.
  - intros [Hlo Hhi]. apply H2 in Hhi.
    assert (~ (String.length (digits n) <= k)%nat)
      by (intros Hc; apply H1 in Hc; lia).
    lia.
Qed.

End DigitCount.


(** ** The scenarios of the test script *)

Example newBank_seed :
  newBank [0%nat; 1%nat] ["user1"; "user2"] Seed.seedStore
  = Return tt Seed.bank.
Proof. reflexivity. Qed.

Example scenario1 :
  observe (createAccount "user1" 20 1234567892 Seed.bank)
  = (inl 2%nat, [mkAccount 1234567890 5000; mkAccount 1234567891 10000;
                 mkAccount 1234567892 0]).
Proof. vm_compute. reflexivity. Qed.

Example scenario2 :
  observe
    ((createAccount "user1" 20 1234567892 ;;
      createAccount "user1" 20 1234567892) Seed.bank)
  = (inr "Account already exists",
      [mkAccount 1234567890 5000; mkAccount 1234567891 10000;
       mkAccount 1234567892 0]).
Proof. vm_compute. reflexivity. Qed.

Example scenario3 :
  observe (createAccount "user1" 17 1234567899 Seed.bank)
  = (inr "User is under 18",
      [mkAccount 1234567890 5000; mkAccount 1234567891 10000]).
Proof. vm_compute. reflexivity. Qed.

Example scenario4 :
  observe (createAccount "user3" 20 1234567888 Seed.bank)
  = (inr "User not found",
      [mkAccount 1234567890 5000; mkAccount 1234567891 10000]).
Proof. vm_compute. reflexivity. Qed.

Example scenario5_to_8 :
  observe
    ((deposit 1234567890 1000 ;; withdraw 1234567890 1000 ;;
      withdraw 1234567890 10000) Seed.bank)
  = (inr "Insufficient funds",
      [mkAccount 1234567890 5000; mkAccount 1234567891 10000]).
Proof. vm_compute. reflexivity. Qed.

Example scenario6 :
  observe (deposit 1234567890 (-100) Seed.bank)
  = (inr "Invalid deposit amount",
      [mkAccount 1234567890 5000; mkAccount 1234567891 10000]).
Proof. vm_compute. reflexivity. Qed.

Example scenario9 :
  observe (getBalance 9999999999 Seed.bank)
  = (inr "Account not found",
      [mkAccount 1234567890 5000; mkAccount 1234567891 10000]).
Proof. vm_compute. reflexivity. Qed.

(** ** The account-number test *)

Lemma toString_length_nonneg (n : number) :
  0 <= n -> String.length (toString n) = String.length (digits n).
Proof.
  intros Hn. unfold toString.
  destruct (Z.ltb_spec n 0); [lia | reflexivity].
Qed.

Lemma toString_length_neg (n : number) :
  n < 0 -> String.length (toString n) = S (String.length (digits (- n))).
Proof.
  intros Hn. unfold toString.
  destruct (Z.ltb_spec n 0); [reflexivity | lia].
Qed.

(** The numbers [createAccount] accepts: those written with ten
    characters, which are the ten-digit naturals and the negatives of
    the nine-digit naturals. *)
Lemma isAccountNumberInvalid_false (n : number) :
  isAccountNumberInvalid n = false <->
  tenDigits n \/ (- 10 ^ 9 < n <= - 10 ^ 8).
Proof.
  unfold isAccountNumberInvalid, tenDigits.
  rewrite Bool.negb_false_iff, Nat.eqb_eq.
  destruct (Z.lt_ge_cases n 0) as [Hneg | Hpos].
  - rewrite toString_length_neg by exact Hneg.
    pose proof (digits_length_eq (- n) 8 ltac:(lia) ltac:(lia)) as H.
    change (Z.of_nat 8) with 8 in H. change (Z.of_nat 9) with 9 in H.
    split.
    + intros E. right. assert (E' : String.length (digits (- n)) = 9%nat) by lia.
      apply H in E'. lia.
    + intros [Hc | Hc]; [lia |].
      assert (E' : String.length (digits (- n)) = 9%nat) by (apply H; lia).
      lia.
  - rewrite toString_length_nonneg by lia.
    pose proof (digits_length_eq n 9 ltac:(lia) ltac:(lia)) as H.
    change (Z.of_nat 9) with 9 in H. change (Z.of_nat 10) with 10 in H.
    split.
    + intros E. left. apply H. exact E.
    + intros [Hc | Hc]; [apply H; exact Hc | lia].
Qed.

Lemma isAccountNumberInvalid_nonneg (n : number) :
  0 <= n -> isAccountNumberInvalid n = negb (tenDigitsb n).
Proof.
  intros Hn.
  destruct (isAccountNumberInvalid n) eqn:E; symmetry.
  - apply Bool.negb_true_iff. apply Bool.not_true_iff_false. intros Ht.
    assert (isAccountNumberInvalid n = false); [| congruence].
    apply isAccountNumberInvalid_false. left. unfold tenDigits.
    unfold tenDigitsb in Ht. apply andb_prop in Ht as [H1 H2].
    apply Z.leb_le in H1. apply Z.ltb_lt in H2. lia.
  - apply Bool.negb_false_iff.
    apply isAccountNumberInvalid_false in E as [E | E]; [| lia].
    unfold tenDigits in E. unfold tenDigitsb.
    apply andb_true_intro. split; [apply Z.leb_le | apply Z.ltb_lt]; lia.
Qed.

Lemma tenDigitsb_spec (n : number) : tenDigitsb n = true <-> tenDigits n.
Proof.
  unfold tenDigitsb, tenDigits.
  rewrite Bool.andb_true_iff, Z.leb_le, Z.ltb_lt. reflexivity.
Qed.

(** ** The store and the array *)

Lemma update_same (h : Store) (l : loc) (v : AccountType) :
  update h l v l = v.
Proof. unfold update. now rewrite Nat.eqb_refl. Qed.

Lemma update_other (h : Store) (l l' : loc) (v : AccountType) :
  l' <> l -> update h l v l' = h l'.
Proof.
  intros Hne. unfold update.
  destruct (Nat.eqb_spec l' l); [contradiction | reflexivity].
Qed.

Lemma update_id (h : Store) (l l' : loc) (v : number) :
  id (update h l (mkAccount (id (h l)) v) l') = id (h l').
Proof.
  unfold update. destruct (Nat.eqb_spec l' l); [subst |]; reflexivity.
Qed.

Lemma freshLoc_notin (ls : list loc) : ~ In (freshLoc ls) ls.
Proof.
  intros Hin. unfold freshLoc in Hin.
  assert (Hall : Forall (fun k => (k <= list_max ls)%nat) ls)
    by (apply list_max_le; apply Nat.le_refl).
  rewrite Forall_forall in Hall. apply Hall in Hin. lia.
Qed.

Lemma map_update_notin (h : Store) (l : loc) (v : AccountType)
    (ls : list loc) :
  ~ In l ls -> map (update h l v) ls = map h ls.
Proof.
  intros Hnot. apply map_ext_in. intros l' Hin.
  apply update_other. intros ->. contradiction.
Qed.

Lemma NoDup_snoc {A} (xs : list A) (x : A) :
  NoDup xs -> ~ In x xs -> NoDup (xs ++ [x]).
Proof.
  induction xs as [|y ys IH]; intros Hnd Hnot; simpl.
  - constructor; [intros [] | constructor].
  - inversion Hnd as [|? ? Hy Hys]; subst. constructor.
    + rewrite in_app_iff. intros [Hin | [-> | []]]; [contradiction |].
      apply Hnot. now left.
    + apply IH; [exact Hys |]. intros Hin. apply Hnot. now right.
Qed.

Lemma find_pointwise {A} (f g : A -> bool) (xs : list A) :
  (forall x, f x = g x) -> find f xs = find g xs.
Proof.
  intros Hfg. induction xs as [|x xs IH]; simpl; [reflexivity |].
  now rewrite Hfg, IH.
Qed.

(** [find] stops at the first element that passes the test. *)
Lemma find_first {A} (f : A -> bool) (pre rest : list A) (x : A) :
  (forall y, In y pre -> f y = false) -> f x = true ->
  find f (pre ++ x :: rest) = Some x.
Proof.
  induction pre as [|y ys IH]; intros Hpre Hx; simpl.
  - now rewrite Hx.
  - rewrite (Hpre y) by now left. apply IH; [| exact Hx].
    intros z Hz. apply Hpre. now right.
Qed.

Lemma existsb_accountsOf (s : State) (i : number) :
  existsb (fun a => id a =? i) (accountsOf s)
  = isFound (find (fun l => id (store s l) =? i) (accounts (this s))).
Proof.
  unfold accountsOf. induction (accounts (this s)) as [|l ls IH]; simpl.
  - reflexivity.
  - destruct (id (store s l) =? i); simpl; [reflexivity | exact IH].
Qed.

Lemma find_noAccount (s : State) (i : number) :
  find (fun l => id (store s l) =? i) (accounts (this s)) = None <->
  noAccount s i.
Proof.
  unfold noAccount, deref. split.
  - intros Hf l Hin Heq.
    pose proof (find_none _ _ Hf l Hin) as Hb. simpl in Hb.
    apply Z.eqb_neq in Hb. contradiction.
  - intros Hno. destruct (find _ _) as [l|] eqn:Hf; [| reflexivity].
    apply find_some in Hf as [Hin Hb]. apply Z.eqb_eq in Hb.
    exfalso. exact (Hno l Hin Hb).
Qed.

Lemma find_hasAccount (s : State) (i : number) :
  hasAccount s i ->
  exists l,
    find (fun l => id (store s l) =? i) (accounts (this s)) = Some l
    /\ In l (accounts (this s)) /\ id (deref s l) = i.
Proof.
  intros (l0 & Hin0 & Hid0).
  destruct (find _ _) as [l|] eqn:Hf.
  - exists l. apply find_some in Hf as [Hin Hb]. apply Z.eqb_eq in Hb.
    repeat split; assumption.
  - apply find_noAccount in Hf. exfalso. exact (Hf l0 Hin0 Hid0).
Qed.

Lemma existsb_registered (s : State) (u : string) :
  existsb (String.eqb u) (usernames (this s)) = true <-> registered s u.
Proof.
  unfold registered. rewrite existsb_exists. split.
  - intros (x & Hin & Heq). apply String.eqb_eq in Heq. now subst.
  - intros Hin. exists u. split; [exact Hin | apply String.eqb_refl].
Qed.

(** ** The calls, one branch at a time *)

Lemma createAccount_unfold (s : State) (u : string) (age n : number) :
  createAccount u age n s =
  if isAccountNumberInvalid n then Throw (mkError "Invalid account number") s
  else if negb (existsb (String.eqb u) (usernames (this s)))
  then Throw (mkError "User not found") s
  else if age <? 18 then Throw (mkError "User is under 18") s
  else match find (fun l => id (store s l) =? n) (accounts (this s)) with
       | Some _ => Throw (mkError "Account already exists") s
       | None =>
           Return (freshLoc (accounts (this s)))
             (mkState
                (update (store s) (freshLoc (accounts (this s)))
                   (mkAccount n 0))
                (mkBank (accounts (this s) ++ [freshLoc (accounts (this s))])
                   (usernames (this s))))
       end.
Proof.
  unfold createAccount, bind, when_, throw, ret, isUsernameExisits,
    findAccountById, newObject, push.
  destruct (isAccountNumberInvalid n); [reflexivity |].
  destruct (existsb _ _); simpl; [| reflexivity].
  destruct (age <? 18); [reflexivity |].
  destruct (find _ _); reflexivity.
Qed.

Lemma deposit_unfold (s : State) (i amt : number) :
  deposit i amt s =
  match find (fun l => id (store s l) =? i) (accounts (this s)) with
  | None => Throw (mkError "Account not found") s
  | Some l =>
      if amt <=? 0 then Throw (mkError "Invalid deposit amount") s
      else Return l
             (mkState
                (update (store s) l
                   (mkAccount (id (store s l)) (balance (store s l) + amt)))
                (this s))
  end.
Proof.
  unfold deposit, bind, when_, throw, ret, findAccountById, readBalance,
    writeBalance.
  destruct (find _ _); [| reflexivity].
  destruct (amt <=? 0); reflexivity.
Qed.

Lemma withdraw_unfold (s : State) (i amt : number) :
  withdraw i amt s =
  match find (fun l => id (store s l) =? i) (accounts (this s)) with
  | None => Throw (mkError "Account not found") s
  | Some l =>
      if amt <=? 0 then Throw (mkError "Invalid withdrawal amount") s
      else if balance (store s l) <? amt
      then Throw (mkError "Insufficient funds") s
      else Return l
             (mkState
                (update (store s) l
                   (mkAccount (id (store s l)) (balance (store s l) - amt)))
                (this s))
  end.
Proof.
  unfold withdraw, bind, when_, throw, ret, findAccountById, readBalance,
    writeBalance.
  destruct (find _ _); [| reflexivity].
  destruct (amt <=? 0); [reflexivity |].
  destruct (balance _ <? amt); reflexivity.
Qed.

Lemma getBalance_unfold (s : State) (i : number) :
  getBalance i s =
  match find (fun l => id (store s l) =? i) (accounts (this s)) with
  | None => Throw (mkError "Account not found") s
  | Some l => Return (balance (store s l)) s
  end.
Proof.
  unfold getBalance, bind, throw, findAccountById, readBalance.
  destruct (find _ _); reflexivity.
Qed.

(** Writing a balance does not move any id, so lookups by id are not
    affected. *)
Lemma find_after_write (h : Store) (l : loc) (v i : number)
    (ls : list loc) :
  find (fun l' => id (update h l (mkAccount (id (h l)) v) l') =? i) ls
  = find (fun l' => id (h l') =? i) ls.
Proof. apply find_pointwise. intros l'. now rewrite update_id. Qed.

(** ** Invariants along a trace of calls *)

Section Preservation.

(** A property of ids that every account number [createAccount]
    accepts for the call at hand satisfies. *)
Variable P : number -> Prop.

Lemma ids_after_write (s : State) (l : loc) (v : number) :
  map id (accountsOf
            (mkState (update (store s) l (mkAccount (id (store s l)) v))
               (this s)))
  = map id (accountsOf s).
Proof.
  unfold accountsOf. simpl. rewrite !map_map.
  apply map_ext. intros l'. apply update_id.
Qed.

Lemma balances_after_write (s : State) (l : loc) (v : number) :
  0 <= v -> balancesNonNegative s ->
  balancesNonNegative
    (mkState (update (store s) l (mkAccount (id (store s l)) v)) (this s)).
Proof.
  unfold balancesNonNegative, accountsOf. simpl.
  rewrite !Forall_map, !Forall_forall. intros Hv Hall l' Hin.
  unfold update. destruct (Nat.eqb_spec l' l); [exact Hv | now apply Hall].
Qed.

Lemma accountsOf_after_create (s : State) (n : number) :
  accountsOf
    (mkState
       (update (store s) (freshLoc (accounts (this s))) (mkAccount n 0))
       (mkBank (accounts (this s) ++ [freshLoc (accounts (this s))])
          (usernames (this s))))
  = accountsOf s ++ [mkAccount n 0].
Proof.
  unfold accountsOf. simpl. rewrite map_app. simpl.
  rewrite update_same, map_update_notin by apply freshLoc_notin.
  reflexivity.
Qed.

Lemma write_preserves (s : State) (l : loc) (v : number) :
  0 <= v ->
  balancesNonNegative s /\ Forall (fun a => P (id a)) (accountsOf s)
  /\ idsDistinct s ->
  let s' :=
    mkState (update (store s) l (mkAccount (id (store s l)) v)) (this s) in
  balancesNonNegative s' /\ Forall (fun a => P (id a)) (accountsOf s')
  /\ idsDistinct s'.
Proof.
  intros Hv (Hb & Hi & Hd). simpl. repeat split.
  - now apply balances_after_write.
  - rewrite <- Forall_map in Hi |- *. now rewrite ids_after_write.
  - unfold idsDistinct. now rewrite ids_after_write.
Qed.

Lemma perform_preserves (c : Call) (s : State) :
  (forall u a n,
      c = CreateAccount u a n -> isAccountNumberInvalid n = false -> P n) ->
  balancesNonNegative s /\ Forall (fun a => P (id a)) (accountsOf s)
  /\ idsDistinct s ->
  balancesNonNegative (perform c s)
  /\ Forall (fun a => P (id a)) (accountsOf (perform c s))
  /\ idsDistinct (perform c s).
Proof.
  intros HP Hinv. unfold perform, run.
  destruct c as [u a n | i amt | i amt | i].
  - rewrite createAccount_unfold.
    destruct (isAccountNumberInvalid n) eqn:Hvalid; [exact Hinv |].
    destruct (negb _); [exact Hinv |].
    destruct (a <? 18); [exact Hinv |].
    destruct (find _ _) eqn:Hfind; [exact Hinv |]. simpl.
    destruct Hinv as (Hb & Hi & Hd).
    unfold balancesNonNegative, idsDistinct.
    rewrite accountsOf_after_create. repeat split.
    + apply Forall_app. split; [exact Hb |]. repeat constructor. simpl. lia.
    + apply Forall_app. split; [exact Hi |]. repeat constructor. simpl.
      now apply (HP u a n).
    + rewrite map_app. simpl. apply NoDup_snoc; [exact Hd |].
      unfold accountsOf. rewrite map_map. rewrite in_map_iff.
      intros (l & Hid & Hin).
      pose proof (find_none _ _ Hfind l Hin) as Hneq. simpl in Hneq.
      apply Z.eqb_neq in Hneq. contradiction.
  - rewrite deposit_unfold.
    destruct (find _ _) as [l|] eqn:Hfind; [| exact Hinv].
    destruct (Z.leb_spec amt 0) as [Hle | Hgt]; [exact Hinv |]. simpl.
    apply write_preserves; [| exact Hinv].
    apply find_some in Hfind as [Hin _].
    destruct Hinv as (Hb & _). unfold balancesNonNegative, accountsOf in Hb.
    rewrite Forall_map, Forall_forall in Hb. specialize (Hb l Hin). lia.
  - rewrite withdraw_unfold.
    destruct (find _ _) as [l|] eqn:Hfind; [| exact Hinv].
    destruct (Z.leb_spec amt 0) as [Hle | Hgt]; [exact Hinv |].
    destruct (Z.ltb_spec (balance (store s l)) amt) as [Hlt | Hge];
      [exact Hinv |]. simpl.
    apply write_preserves; [lia | exact Hinv].
  - rewrite getBalance_unfold.
    destruct (find _ _); exact Hinv.
Qed.

End Preservation.

(** Every call keeps balances non-negative, ids pairwise distinct and
    ids among the numbers [createAccount] accepts. *)
Lemma perform_preserves_checkedInvariant (c : Call) (s : State) :
  checkedInvariant s -> checkedInvariant (perform c s).
Proof.
  apply (perform_preserves (fun n => isAccountNumberInvalid n = false)).
  intros u a n _ H. exact H.
Qed.

Lemma performAll_preserves_checkedInvariant (cs : list Call) (s : State) :
  checkedInvariant s -> checkedInvariant (performAll cs s).
Proof.
  revert s. induction cs as [|c cs IH]; intros s Hinv; simpl.
  - exact Hinv.
  - apply IH. now apply perform_preserves_checkedInvariant.
Qed.

(** The data-model invariants survive every trace whose account
    numbers are not negative. *)
Lemma performAll_preserves_dataModelInvariant (cs : list Call) (s : State) :
  Forall nonNegativeNumber cs ->
  dataModelInvariant s -> dataModelInvariant (performAll cs s).
Proof.
  revert s. induction cs as [|c cs IH]; intros s Hcs Hinv; simpl.
  - exact Hinv.
  - inversion Hcs as [|? ? Hc Hrest]; subst.
    apply IH; [exact Hrest |].
    apply (perform_preserves tenDigits); [| exact Hinv].
    intros u a n -> Hvalid. simpl in Hc.
    apply isAccountNumberInvalid_false in Hvalid as [H | H]; [exact H | lia].
Qed.

Lemma seed_dataModelInvariant : dataModelInvariant Seed.bank.
Proof.
  unfold dataModelInvariant, balancesNonNegative, idsTenDigits, idsDistinct.
  change (accountsOf Seed.bank)
    with [mkAccount 1234567890 5000; mkAccount 1234567891 10000].
  repeat split.
  - repeat constructor; simpl; lia.
  - repeat constructor; unfold tenDigits; simpl; lia.
  - simpl. repeat constructor; simpl; intuition discriminate.
Qed.

(** C1 (invariants under every operation), evaluated where it fails:
    the seed bank satisfies the data-model invariants, and after
    [createAccount "user1" 20 (-123456789)] it holds an account whose
    id has nine digits, so the invariants no longer hold. *)
Theorem createAccount_breaks_ten_digit_invariant :
  dataModelInvariant Seed.bank
  /\ accountsOf (perform (CreateAccount "user1" 20 (-123456789)) Seed.bank)
     = [mkAccount 1234567890 5000; mkAccount 1234567891 10000;
        mkAccount (-123456789) 0]
  /\ ~ dataModelInvariant
         (perform (CreateAccount "user1" 20 (-123456789)) Seed.bank).
Proof.
  assert (E : accountsOf
                (perform (CreateAccount "user1" 20 (-123456789)) Seed.bank)
              = [mkAccount 1234567890 5000; mkAccount 1234567891 10000;
                 mkAccount (-123456789) 0])
    by (vm_compute; reflexivity).
  split; [exact seed_dataModelInvariant |]. split; [exact E |].
  intros (_ & Hids & _). unfold idsTenDigits in Hids. rewrite E in Hids.
  rewrite Forall_forall in Hids.
  specialize (Hids (mkAccount (-123456789) 0)).
  unfold tenDigits in Hids. simpl in Hids.
  assert (10 ^ 9 <= -123456789 < 10 ^ 10) as [Hlo _]
    by (apply Hids; right; right; left; reflexivity).
  simpl in Hlo. lia.
Qed.

(** ** The order of the checks of [createAccount] *)

Lemma createAccount_reports_first_failing_check
    (s : State) (u : string) (age n : number) :
  reportedKind (createAccount u age n s)
  = firstFailing (codePreconditions s u age n).
Proof.
  rewrite createAccount_unfold. unfold firstFailing, codePreconditions.
  rewrite existsb_accountsOf. simpl.
  destruct (isAccountNumberInvalid n); [reflexivity |]. simpl.
  destruct (existsb _ _); [| reflexivity]. simpl.
  rewrite Z.leb_antisym.
  destruct (age <? 18); [reflexivity |]. simpl.
  destruct (find _ _); reflexivity.
Qed.

(** On account numbers that are not negative, the reported error is the
    first failing precondition of the spec's list. *)
Lemma createAccount_reports_first_failing_nonneg
    (s : State) (u : string) (age n : number) :
  0 <= n ->
  reportedKind (createAccount u age n s)
  = firstFailing (specPreconditions s u age n).
Proof.
  intros Hn. rewrite createAccount_reports_first_failing_check.
  unfold codePreconditions, specPreconditions.
  rewrite isAccountNumberInvalid_nonneg by exact Hn.
  now rewrite Bool.negb_involutive.
Qed.

(** C2 (order of the preconditions), evaluated where it fails: for the
    nine-digit negative number [-123456789] and the unregistered user
    ["user3"], the first failing precondition of the spec's list is the
    ten-digit one, and the call reports an unknown user. *)
Theorem createAccount_order_skips_nine_digit_negative :
  firstFailing (specPreconditions Seed.bank "user3" 20 (-123456789))
  = Some InvalidAccountNumber
  /\ createAccount "user3" 20 (-123456789) Seed.bank
     = Throw (mkError "User not found") Seed.bank
  /\ reportedKind (createAccount "user3" 20 (-123456789) Seed.bank)
     = Some UnknownUser.
Proof. repeat split; vm_compute; reflexivity. Qed.

(** ** Account numbers that are not ten digits long *)

Lemma createAccount_rejects_invalid (s : State) (u : string) (age n : number) :
  ~ tenDigits n -> ~ (- 10 ^ 9 < n <= - 10 ^ 8) ->
  failsWith (createAccount u age n s) InvalidAccountNumber s.
Proof.
  intros Hten Hneg. rewrite createAccount_unfold.
  destruct (isAccountNumberInvalid n) eqn:E.
  - eexists. split; reflexivity.
  - apply isAccountNumberInvalid_false in E. tauto.
Qed.

Lemma createAccount_accepts_nine_digit_negatives
    (s : State) (u : string) (age n : number) :
  - 10 ^ 9 < n <= - 10 ^ 8 -> registered s u -> 18 <= age -> noAccount s n ->
  exists l s',
    createAccount u age n s = Return l s' /\ deref s' l = mkAccount n 0.
Proof.
  intros Hn Hu Hage Hno. rewrite createAccount_unfold.
  assert (E : isAccountNumberInvalid n = false)
    by (apply isAccountNumberInvalid_false; now right).
  rewrite E. apply existsb_registered in Hu. rewrite Hu. simpl.
  destruct (Z.ltb_spec age 18); [lia |].
  apply find_noAccount in Hno. rewrite Hno.
  eexists. eexists. split; [reflexivity |].
  unfold deref. simpl. apply update_same.
Qed.

(** C3 (every number that is not ten digits long is rejected),
    evaluated where it fails: [-123456789] has nine digits, and
    [createAccount "user1" 20 (-123456789)] returns a new account with
    that id. *)
Theorem createAccount_accepts_nine_digit_negative :
  (tenDigits (-123456789) -> False)
  /\ isAccountNumberInvalid (-123456789) = false
  /\ exists s',
      createAccount "user1" 20 (-123456789) Seed.bank = Return 2%nat s'
      /\ deref s' 2%nat = mkAccount (-123456789) 0
      /\ accounts (this s') = [0%nat; 1%nat; 2%nat].
Proof.
  split; [unfold tenDigits; simpl; lia |].
  split; [vm_compute; reflexivity |].
  eexists. split; [vm_compute; reflexivity |].
  split; reflexivity.
Qed.

(** ** Successful account creation *)

(** What a returning [createAccount] has done. *)
Lemma createAccount_return_effect
    (s : State) (u : string) (age n : number) (l : loc) (s' : State) :
  createAccount u age n s = Return l s' ->
  deref s' l = mkAccount n 0
  /\ ~ In l (accounts (this s))
  /\ accounts (this s') = accounts (this s) ++ [l]
  /\ accountsOf s' = accountsOf s ++ [mkAccount n 0]
  /\ (forall l', l' <> l -> deref s' l' = deref s l')
  /\ usernames (this s') = usernames (this s).
Proof.
  rewrite createAccount_unfold.
  destruct (isAccountNumberInvalid n); [discriminate |].
  destruct (negb _); [discriminate |].
  destruct (age <? 18); [discriminate |].
  destruct (find _ _); [discriminate |].
  intros [= <- <-]. unfold deref. simpl.
  split; [apply update_same |].
  split; [apply freshLoc_notin |].
  split; [reflexivity |].
  split; [apply accountsOf_after_create |].
  split; [| reflexivity].
  intros l' Hne. now apply update_other.
Qed.

Lemma createAccount_returns
    (s : State) (u : string) (age n : number) :
  isAccountNumberInvalid n = false -> registered s u -> 18 <= age ->
  noAccount s n ->
  exists l s', createAccount u age n s = Return l s'.
Proof.
  intros E Hu Hage Hno. rewrite createAccount_unfold, E.
  apply existsb_registered in Hu. rewrite Hu. simpl.
  destruct (Z.ltb_spec age 18); [lia |].
  apply find_noAccount in Hno. rewrite Hno. eauto.
Qed.

(** C4: when the four preconditions hold the call returns, and every
    call that returns yields a new account object with the given id and
    balance 0, appended at the end of the collection; every other
    object (so every earlier entry) and the usernames are as before. *)
Theorem createAccount_success (s : State) (u : string) (age n : number) :
  (tenDigits n -> registered s u -> 18 <= age -> noAccount s n ->
   exists l s', createAccount u age n s = Return l s')
  /\ (forall l s',
        createAccount u age n s = Return l s' ->
        deref s' l = mkAccount n 0
        /\ ~ In l (accounts (this s))
        /\ accounts (this s') = accounts (this s) ++ [l]
        /\ accountsOf s' = accountsOf s ++ [mkAccount n 0]
        /\ (forall l', l' <> l -> deref s' l' = deref s l')
        /\ (forall l', In l' (accounts (this s)) -> deref s' l' = deref s l')
        /\ usernames (this s') = usernames (this s)).
Proof.
  split.
  - intros Hten. apply createAccount_returns.
    apply isAccountNumberInvalid_false. now left.
  - intros l s' H.
    apply createAccount_return_effect in H
      as (Hnew & Hfresh & Hpush & Hall & Hothers & Hnames).
    repeat split; try assumption.
    intros l' Hin. apply Hothers. intros ->. contradiction.
Qed.

Lemma createAccount_success_witness :
  (exists l s', createAccount "user1" 20 1234567892 Seed.bank = Return l s')
  /\ accountsOf (perform (CreateAccount "user1" 20 1234567892) Seed.bank)
     = accountsOf Seed.bank ++ [mkAccount 1234567892 0].
Proof.
  pose proof (createAccount_success Seed.bank "user1" 20 1234567892)
    as [Hreturns Heffect].
  split.
  - apply Hreturns.
    + unfold tenDigits. simpl. lia.
    + left. reflexivity.
    + lia.
    + intros l [<- | [<- | []]]; vm_compute; discriminate.
  - apply (Heffect 2%nat). vm_compute. reflexivity.
Defined.

(** ** Deposits and withdrawals *)

(** X19: for integer balances and amounts of magnitude at most 2^53
    whose sum (for a deposit) or difference (for a withdrawal) is
    within the same range, a deposit that returns has added exactly
    [amt] to the balance of the account object it returns, and a
    withdrawal that returns has subtracted exactly [amt]. No other
    object and no field of the instance has changed, and [getBalance]
    reports the new balance. *)
Theorem deposit_withdraw_exact_in_safe_range
    (s : State) (i amt : number) (l : loc) (s' : State) :
  safeInteger amt -> safeInteger (balance (deref s l)) ->
  (deposit i amt s = Return l s' ->
   safeInteger (balance (deref s l) + amt) ->
   In l (accounts (this s)) /\ id (deref s l) = i
   /\ deref s' l = mkAccount i (balance (deref s l) + amt)
   /\ (forall l', l' <> l -> deref s' l' = deref s l')
   /\ this s' = this s
   /\ getBalance i s = Return (balance (deref s l)) s
   /\ getBalance i s' = Return (balance (deref s l) + amt) s')
  /\ (withdraw i amt s = Return l s' ->
      safeInteger (balance (deref s l) - amt) ->
      In l (accounts (this s)) /\ id (deref s l) = i
      /\ deref s' l = mkAccount i (balance (deref s l) - amt)
      /\ (forall l', l' <> l -> deref s' l' = deref s l')
      /\ this s' = this s
      /\ getBalance i s = Return (balance (deref s l)) s
      /\ getBalance i s' = Return (balance (deref s l) - amt) s').
Proof.
  intros _ _. split.
  - rewrite deposit_unfold.
    destruct (find _ _) as [l0|] eqn:Hfind; [| discriminate].
    destruct (amt <=? 0); [discriminate |].
    intros [= -> <-] _.
    pose proof (find_some _ _ Hfind) as [Hin Hid]. apply Z.eqb_eq in Hid.
    unfold deref. rewrite !getBalance_unfold. simpl.
    rewrite find_after_write, Hfind, update_same, Hid. simpl.
    repeat split; try assumption.
    intros l' Hne. now apply update_other.
  - rewrite withdraw_unfold.
    destruct (find _ _) as [l0|] eqn:Hfind; [| discriminate].
    destruct (amt <=? 0); [discriminate |].
    destruct (balance _ <? amt); [discriminate |].
    intros [= -> <-] _.
    pose proof (find_some _ _ Hfind) as [Hin Hid]. apply Z.eqb_eq in Hid.
    unfold deref. rewrite !getBalance_unfold. simpl.
    rewrite find_after_write, Hfind, update_same, Hid. simpl.
    repeat split; try assumption.
    intros l' Hne. now apply update_other.
Qed.

Lemma deposit_withdraw_exact_in_safe_range_witness :
  deref (finalState (deposit 1234567890 1000 Seed.bank)) 0%nat
  = mkAccount 1234567890 (5000 + 1000)
  /\ deref (finalState (withdraw 1234567891 1000 Seed.bank)) 1%nat
     = mkAccount 1234567891 (10000 - 1000).
Proof.
  split.
  - apply (proj1 (deposit_withdraw_exact_in_safe_range Seed.bank 1234567890
                    1000 0%nat
                    (finalState (deposit 1234567890 1000 Seed.bank))
                    ltac:(unfold safeInteger; simpl; lia)
                    ltac:(unfold safeInteger; simpl; lia)));
      [reflexivity | unfold safeInteger; simpl; lia].
  - apply (proj2 (deposit_withdraw_exact_in_safe_range Seed.bank 1234567891
                    1000 1%nat
                    (finalState (withdraw 1234567891 1000 Seed.bank))
                    ltac:(unfold safeInteger; simpl; lia)
                    ltac:(unfold safeInteger; simpl; lia)));
      [reflexivity | unfold safeInteger; simpl; lia].
Defined.

(** C6: on an id with no matching account, deposit and withdraw report
    [AccountNotFound] whatever the amount; on an id with a matching
    account and an amount [<= 0], both report [InvalidAmount]. Nothing
    changes in either case. *)
Theorem existence_checked_before_amount (s : State) (i amt : number) :
  (noAccount s i ->
   failsWith (deposit i amt s) AccountNotFound s
   /\ failsWith (withdraw i amt s) AccountNotFound s)
  /\ (hasAccount s i -> amt <= 0 ->
      failsWith (deposit i amt s) InvalidAmount s
      /\ failsWith (withdraw i amt s) InvalidAmount s).
Proof.
  rewrite deposit_unfold, withdraw_unfold. split.
  - intros Hno. apply find_noAccount in Hno. rewrite Hno.
    split; eexists; split; reflexivity.
  - intros Hhas Hamt. apply find_hasAccount in Hhas as (l & Hfind & _).
    rewrite Hfind. destruct (Z.leb_spec amt 0); [| lia].
    split; eexists; split; reflexivity.
Qed.

Lemma existence_checked_before_amount_witness :
  (failsWith (deposit 9999999999 (-100) Seed.bank) AccountNotFound Seed.bank
   /\ failsWith (withdraw 9999999999 (-100) Seed.bank) AccountNotFound
        Seed.bank)
  /\ (failsWith (deposit 1234567890 (-100) Seed.bank) InvalidAmount Seed.bank
      /\ failsWith (withdraw 1234567890 (-100) Seed.bank) InvalidAmount
           Seed.bank).
Proof.
  split.
  - apply (proj1 (existence_checked_before_amount Seed.bank 9999999999 (-100))).
    intros l [<- | [<- | []]]; vm_compute; discriminate.
  - apply (proj2 (existence_checked_before_amount Seed.bank 1234567890 (-100))).
    + exists 0%nat. split; [left |]; reflexivity.
    + lia.
Defined.



(** ** The state after a throw *)

Lemma mapOutcome_Throw {A B} (f : A -> B) (o : Outcome A) (e : Error)
    (s' : State) :
  mapOutcome f o = Throw e s' -> o = Throw e s'.
Proof. destruct o; simpl; [discriminate | now intros [= -> ->]]. Qed.

Lemma mapOutcome_Return {A B} (f : A -> B) (o : Outcome A) (v : B)
    (s' : State) :
  mapOutcome f o = Return v s' -> exists a, o = Return a s' /\ v = f a.
Proof.
  destruct o as [a s0|]; simpl; [| discriminate].
  intros [= <- <-]. now exists a.
Qed.

Lemma createAccount_throws_unchanged
    (s : State) (u : string) (age n : number) (e : Error) (s' : State) :
  createAccount u age n s = Throw e s' -> s' = s.
Proof.
  rewrite createAccount_unfold.
  destruct (isAccountNumberInvalid n); [now intros [= _ <-] |].
  destruct (negb _); [now intros [= _ <-] |].
  destruct (age <? 18); [now intros [= _ <-] |].
  destruct (find _ _); [now intros [= _ <-] | discriminate].
Qed.

Lemma deposit_throws_unchanged
    (s : State) (i amt : number) (e : Error) (s' : State) :
  deposit i amt s = Throw e s' -> s' = s.
Proof.
  rewrite deposit_unfold.
  destruct (find _ _); [| now intros [= _ <-]].
  destruct (amt <=? 0); [now intros [= _ <-] | discriminate].
Qed.

Lemma withdraw_throws_unchanged
    (s : State) (i amt : number) (e : Error) (s' : State) :
  withdraw i amt s = Throw e s' -> s' = s.
Proof.
  rewrite withdraw_unfold.
  destruct (find _ _); [| now intros [= _ <-]].
  destruct (amt <=? 0); [now intros [= _ <-] |].
  destruct (balance _ <? amt); [now intros [= _ <-] | discriminate].
Qed.

Lemma getBalance_state (s : State) (i : number) :
  finalState (getBalance i s) = s.
Proof. rewrite getBalance_unfold. destruct (find _ _); reflexivity. Qed.

(** ** The constructor *)

(** C9: the constructor stores whatever it is given. It accepts a
    snapshot with a negative balance, one with a two-digit id and one
    with two accounts of the same id, and the calls that follow run on
    these states without an error: [getBalance] returns the negative
    balance. *)
Theorem constructor_does_not_validate :
  (forall accts names h,
      newBank accts names h = Return tt (mkState h (mkBank accts names)))
  /\ ((balancesNonNegative Unvalidated.overdrawn -> False)
      /\ newBank [0%nat] [] Unvalidated.overdrawnStore
         = Return tt Unvalidated.overdrawn
      /\ getBalance 1234567890 Unvalidated.overdrawn
         = Return (-50) Unvalidated.overdrawn)
  /\ ((idsTenDigits Unvalidated.shortId -> False)
      /\ newBank [0%nat] [] Unvalidated.shortIdStore
         = Return tt Unvalidated.shortId
      /\ getBalance 42 Unvalidated.shortId = Return 10 Unvalidated.shortId
      /\ observe (deposit 42 5 Unvalidated.shortId)
         = (inl 0%nat, [mkAccount 42 15]))
  /\ ((idsDistinct Unvalidated.twins -> False)
      /\ newBank [0%nat; 1%nat] [] Unvalidated.twinsStore
         = Return tt Unvalidated.twins
      /\ getBalance 1234567890 Unvalidated.twins
         = Return 100 Unvalidated.twins).
Proof.
  split; [reflexivity |].
  split; [| split].
  - split; [| split; reflexivity].
    intros H. unfold balancesNonNegative in H.
    change (accountsOf Unvalidated.overdrawn)
      with [mkAccount 1234567890 (-50)] in H.
    inversion H as [|? ? Hneg _]; subst. simpl in Hneg. lia.
  - split; [| repeat split; reflexivity].
    intros H. unfold idsTenDigits in H.
    change (accountsOf Unvalidated.shortId) with [mkAccount 42 10] in H.
    inversion H as [|? ? Hten _]; subst.
    unfold tenDigits in Hten. simpl in Hten. lia.
  - split; [| split; reflexivity].
    intros H. unfold idsDistinct in H.
    change (map id (accountsOf Unvalidated.twins))
      with [1234567890; 1234567890] in H.
    inversion H as [|? ? Hnotin _]; subst. apply Hnotin. now left.
Qed.

(** ** Accounts that share an id *)



(** The later twin is a different object and keeps its balance; an
    object listed twice is one object, seen at both positions. *)
Example deposit_on_twins :
  observe (deposit 1234567890 5 Unvalidated.twins)
  = (inl 0%nat, [mkAccount 1234567890 105; mkAccount 1234567890 7]).
Proof. vm_compute. reflexivity. Qed.

Example deposit_on_object_listed_twice :
  observe (deposit 1234567890 60 Unvalidated.listedTwice)
  = (inl 0%nat, [mkAccount 1234567890 10; mkAccount 1234567890 10]).
Proof. vm_compute. reflexivity. Qed.

(** * Further properties of the class *)

(** ** The account-number test, number by number *)

(** X1: on the integers of magnitude below 10^21, which [toString]
    renders with all their digits, [isAccountNumberInvalid] accepts
    exactly those from 1000000000 to 9999999999 and those from
    -999999999 to -100000000 (the minus sign is counted). *)
Theorem isAccountNumberInvalid_by_range (n : number) :
  (0 <= n < 10 ^ 21 ->
   (isAccountNumberInvalid n = false <-> 1000000000 <= n <= 9999999999))
  /\ (- 10 ^ 21 < n < 0 ->
      (isAccountNumberInvalid n = false <-> -999999999 <= n <= -100000000)).
Proof.
  pose proof (isAccountNumberInvalid_false n) as H. unfold tenDigits in H.
  change (10 ^ 9) with 1000000000 in H.
  change (10 ^ 10) with 10000000000 in H.
  change (10 ^ 8) with 100000000 in H.
  split; intros Hn; rewrite H; lia.
Qed.

Lemma isAccountNumberInvalid_by_range_witness :
  isAccountNumberInvalid 9999999999 = false
  /\ isAccountNumberInvalid (-100000000) = false.
Proof.
  split.
  - apply (proj1 (isAccountNumberInvalid_by_range 9999999999));
      simpl; lia.
  - apply (proj2 (isAccountNumberInvalid_by_range (-100000000)));
      simpl; lia.
Defined.

(** ** What [createAccount] throws *)

Lemma createAccount_return_checks
    (s : State) (u : string) (age n : number) (l : loc) (s' : State) :
  createAccount u age n s = Return l s' ->
  isAccountNumberInvalid n = false /\ registered s u /\ 18 <= age
  /\ noAccount s n.
Proof.
  rewrite createAccount_unfold.
  destruct (isAccountNumberInvalid n); [discriminate |].
  destruct (existsb _ _) eqn:Hu; simpl; [| discriminate].
  destruct (Z.ltb_spec age 18); [discriminate |].
  destruct (find _ _) eqn:Hfind; [discriminate |]. intros _.
  repeat split; try assumption.
  - now apply existsb_registered.
  - now apply find_noAccount.
Qed.

(** X3: the error of a [createAccount] that does not return, check by
    check: a rejected number is an [InvalidAccountNumber] whatever the
    username and the age; then an unregistered username is an
    [UnknownUser] whatever the age; then an age below 18 is an
    [UnderageUser] even when the id is taken; then a taken id is a
    [DuplicateAccount]. The state is the one before the call. *)
Theorem createAccount_error_by_check
    (s : State) (u : string) (age n : number) :
  (isAccountNumberInvalid n = true ->
   failsWith (createAccount u age n s) InvalidAccountNumber s)
  /\ (isAccountNumberInvalid n = false -> ~ registered s u ->
      failsWith (createAccount u age n s) UnknownUser s)
  /\ (isAccountNumberInvalid n = false -> registered s u -> age < 18 ->
      failsWith (createAccount u age n s) UnderageUser s)
  /\ (isAccountNumberInvalid n = false -> registered s u -> 18 <= age ->
      hasAccount s n ->
      failsWith (createAccount u age n s) DuplicateAccount s).
Proof.
  rewrite createAccount_unfold.
  split; [| split; [| split]].
  - intros ->. eexists. split; reflexivity.
  - intros -> Hu.
    destruct (existsb _ _) eqn:E; simpl.
    + apply existsb_registered in E. contradiction.
    + eexists. split; reflexivity.
  - intros -> Hu Hage. apply existsb_registered in Hu. rewrite Hu. simpl.
    destruct (Z.ltb_spec age 18); [| lia].
    eexists. split; reflexivity.
  - intros -> Hu Hage Hhas. apply existsb_registered in Hu. rewrite Hu. simpl.
    destruct (Z.ltb_spec age 18); [lia |].
    apply find_hasAccount in Hhas as (l & Hfind & _). rewrite Hfind.
    eexists. split; reflexivity.
Qed.

Lemma createAccount_error_by_check_witness :
  failsWith (createAccount "user3" 17 123 Seed.bank) InvalidAccountNumber
    Seed.bank
  /\ failsWith (createAccount "user3" 17 1234567890 Seed.bank) UnknownUser
       Seed.bank
  /\ failsWith (createAccount "user1" 17 1234567890 Seed.bank) UnderageUser
       Seed.bank
  /\ failsWith (createAccount "user1" 18 1234567890 Seed.bank)
       DuplicateAccount Seed.bank.
Proof.
  split; [| split; [| split]].
  - apply (proj1 (createAccount_error_by_check Seed.bank "user3" 17 123)).
    reflexivity.
  - apply (proj1 (proj2 (createAccount_error_by_check Seed.bank "user3" 17
                           1234567890))); [reflexivity |].
    intros [H | [H | []]]; discriminate.
  - apply (proj1 (proj2 (proj2 (createAccount_error_by_check Seed.bank
                                  "user1" 17 1234567890))));
      [reflexivity | left; reflexivity | lia].
  - apply (proj2 (proj2 (proj2 (createAccount_error_by_check Seed.bank
                                  "user1" 18 1234567890))));
      [reflexivity | left; reflexivity | lia |].
    exists 0%nat. split; [left |]; reflexivity.
Defined.

(** ** A created account in the calls that follow *)

Lemma find_last {A} (f : A -> bool) (xs : list A) (x : A) :
  (forall y, In y xs -> f y = false) -> f x = true ->
  find f (xs ++ [x]) = Some x.
Proof. intros Hxs Hx. now apply find_first. Qed.

(** After a returning [createAccount], the lookup of the new id finds
    the new object. *)
Lemma find_created
    (s : State) (u : string) (age n : number) (l : loc) (s' : State) :
  createAccount u age n s = Return l s' ->
  find (fun l' => id (store s' l') =? n) (accounts (this s')) = Some l.
Proof.
  intros H.
  pose proof (createAccount_return_checks _ _ _ _ _ _ H)
    as (_ & _ & _ & Hno).
  apply createAccount_return_effect in H
    as (Hnew & Hfresh & Hpush & _ & Hothers & _).
  rewrite Hpush. apply find_last.
  - intros l' Hin. apply Z.eqb_neq.
    unfold deref in Hothers. rewrite Hothers by (intros ->; contradiction).
    now apply Hno.
  - unfold deref in Hnew. rewrite Hnew. apply Z.eqb_refl.
Qed.

(** X5: an id that [createAccount] has just given out is taken: no
    later [createAccount] with that id returns, whoever asks, and for a
    registered user of age 18 or more the error is a
    [DuplicateAccount]. *)
Theorem createAccount_same_id_again
    (s : State) (u u' : string) (age age' n : number) (l : loc)
    (s' : State) :
  createAccount u age n s = Return l s' ->
  (forall l2 s2, createAccount u' age' n s' <> Return l2 s2)
  /\ (registered s' u' -> 18 <= age' ->
      failsWith (createAccount u' age' n s') DuplicateAccount s').
Proof.
  intros H. pose proof (find_created _ _ _ _ _ _ H) as Hfind.
  apply createAccount_return_checks in H as (Hvalid & _).
  rewrite createAccount_unfold, Hvalid, Hfind. split.
  - intros l2 s2. destruct (negb _); [discriminate |].
    destruct (age' <? 18); discriminate.
  - intros Hu Hage. apply existsb_registered in Hu. rewrite Hu. simpl.
    destruct (Z.ltb_spec age' 18); [lia |].
    eexists. split; reflexivity.
Qed.

Lemma createAccount_same_id_again_witness :
  failsWith
    (createAccount "user2" 30 1234567892
       (finalState (createAccount "user1" 20 1234567892 Seed.bank)))
    DuplicateAccount
    (finalState (createAccount "user1" 20 1234567892 Seed.bank)).
Proof.
  apply (proj2 (createAccount_same_id_again Seed.bank "user1" "user2" 20 30
                  1234567892 2%nat
                  (finalState (createAccount "user1" 20 1234567892 Seed.bank))
                  eq_refl)).
  - right. left. reflexivity.
  - lia.
Defined.

(** X6: a username is not used up by [createAccount]: after a returning
    call, the same user (same age) gets a second, different account
    object for any other accepted number that is not taken. *)
Theorem createAccount_again_same_user
    (s : State) (u : string) (age n n' : number) (l : loc) (s' : State) :
  createAccount u age n s = Return l s' ->
  n' <> n -> isAccountNumberInvalid n' = false -> noAccount s n' ->
  exists l2 s2,
    createAccount u age n' s' = Return l2 s2
    /\ l2 <> l
    /\ accountsOf s2 = accountsOf s ++ [mkAccount n 0; mkAccount n' 0].
Proof.
  intros H Hne Hvalid Hno.
  pose proof (createAccount_return_checks _ _ _ _ _ _ H)
    as (_ & Hu & Hage & _).
  pose proof (createAccount_return_effect _ _ _ _ _ _ H)
    as (Hnew & Hfresh & Hpush & Hall & Hothers & Hnames).
  assert (Hu' : registered s' u) by (unfold registered; now rewrite Hnames).
  assert (Hno' : noAccount s' n').
  { intros l' Hin. rewrite Hpush in Hin.
    apply in_app_or in Hin as [Hin | [<- | []]].
    - rewrite Hothers by (intros ->; contradiction). now apply Hno.
    - rewrite Hnew. simpl. congruence. }
  destruct (createAccount_returns s' u age n' Hvalid Hu' Hage Hno')
    as (l2 & s2 & H2).
  exists l2, s2. split; [exact H2 |].
  apply createAccount_return_effect in H2 as (_ & Hfresh2 & _ & Hall2 & _).
  split.
  - intros ->. apply Hfresh2. rewrite Hpush. apply in_or_app. right. now left.
  - rewrite Hall2, Hall, <- app_assoc. reflexivity.
Qed.

Lemma createAccount_again_same_user_witness :
  exists l2 s2,
    createAccount "user1" 20 1234567893
      (finalState (createAccount "user1" 20 1234567892 Seed.bank))
    = Return l2 s2
    /\ l2 <> 2%nat
    /\ accountsOf s2
       = accountsOf Seed.bank
         ++ [mkAccount 1234567892 0; mkAccount 1234567893 0].
Proof.
  apply (createAccount_again_same_user Seed.bank "user1" 20 1234567892
           1234567893 2%nat
           (finalState (createAccount "user1" 20 1234567892 Seed.bank))
           eq_refl).
  - discriminate.
  - reflexivity.
  - intros l [<- | [<- | []]]; vm_compute; discriminate.
Defined.

(** ** Deposits and withdrawals, one after the other *)

Lemma account_eta (a : AccountType) : mkAccount (id a) (balance a) = a.
Proof. destruct a. reflexivity. Qed.

(** Two writes of a balance to one object amount to the second. *)
Lemma write_write (h : Store) (l l' : loc) (v w : number) :
  update (update h l (mkAccount (id (h l)) v)) l
    (mkAccount (id (update h l (mkAccount (id (h l)) v) l)) w) l'
  = update h l (mkAccount (id (h l)) w) l'.
Proof.
  rewrite update_id. unfold update.
  destruct (Nat.eqb l' l); reflexivity.
Qed.

(** Writing back the balance an object has changes nothing. *)
Lemma write_back (h : Store) (l l' : loc) :
  update h l (mkAccount (id (h l)) (balance (h l))) l' = h l'.
Proof.
  unfold update. destruct (Nat.eqb_spec l' l); [subst |]; [| reflexivity].
  apply account_eta.
Qed.

Lemma accountsOf_pointwise (s s' : State) :
  this s' = this s -> (forall l, deref s' l = deref s l) ->
  accountsOf s' = accountsOf s.
Proof.
  intros Hthis Hall. unfold accountsOf. rewrite Hthis.
  apply map_ext. exact Hall.
Qed.

(** X7: for an integer balance and amount of magnitude at most 2^53
    whose sum is within the same range, a deposit followed by a
    withdrawal of the same amount from the same id puts every account
    object back as it was, provided the balance was not negative
    before; on a negative balance the withdrawal is refused for
    insufficient funds and the deposit stays. *)
Theorem deposit_then_withdraw
    (s : State) (i amt : number) (l : loc) (s1 : State) :
  deposit i amt s = Return l s1 ->
  safeInteger (balance (deref s l)) -> safeInteger amt ->
  safeInteger (balance (deref s l) + amt) ->
  (0 <= balance (deref s l) ->
   exists s2,
     withdraw i amt s1 = Return l s2
     /\ (forall l', deref s2 l' = deref s l')
     /\ this s2 = this s
     /\ accountsOf s2 = accountsOf s)
  /\ (balance (deref s l) < 0 ->
      failsWith (withdraw i amt s1) InsufficientFunds s1).
Proof.
  unfold deref. rewrite deposit_unfold.
  destruct (find _ _) as [l0|] eqn:Hfind; [| discriminate].
  destruct (Z.leb_spec amt 0) as [Hle | Hpos]; [discriminate |].
  intros [= -> <-] _ _ _. rewrite withdraw_unfold. simpl.
  rewrite find_after_write, Hfind, update_same. simpl.
  destruct (Z.leb_spec amt 0); [lia |]. split.
  - intros Hb.
    destruct (Z.ltb_spec (balance (store s l) + amt) amt); [lia |].
    eexists. split; [reflexivity |].
    assert (Hall : forall l',
               update
                 (update (store s) l
                    (mkAccount (id (store s l)) (balance (store s l) + amt)))
                 l (mkAccount (id (store s l))
                      (balance (store s l) + amt - amt)) l'
               = store s l').
    { intros l'. rewrite Z.add_simpl_r.
      rewrite <- (write_back (store s) l l'). unfold update.
      destruct (Nat.eqb l' l); reflexivity. }
    split; [exact Hall |]. split; [reflexivity |].
    apply accountsOf_pointwise; [reflexivity | exact Hall].
  - intros Hb.
    destruct (Z.ltb_spec (balance (store s l) + amt) amt); [| lia].
    eexists. split; reflexivity.
Qed.

Lemma deposit_then_withdraw_witness :
  exists s2,
    withdraw 1234567890 1000
      (finalState (deposit 1234567890 1000 Seed.bank))
    = Return 0%nat s2
    /\ accountsOf s2 = accountsOf Seed.bank.
Proof.
  destruct (proj1 (deposit_then_withdraw Seed.bank 1234567890 1000 0%nat
                     (finalState (deposit 1234567890 1000 Seed.bank))
                     eq_refl
                     ltac:(unfold safeInteger; simpl; lia)
                     ltac:(unfold safeInteger; simpl; lia)
                     ltac:(unfold safeInteger; simpl; lia)))
    as (s2 & Hw & _ & _ & Hsame).
  - simpl. lia.
  - exists s2. split; assumption.
Defined.

(** X8: for an integer balance and amount of magnitude at most 2^53, a
    withdrawal followed by a deposit of the same amount to the same id
    always goes through and puts every account object back as it
    was. *)
Theorem withdraw_then_deposit
    (s : State) (i amt : number) (l : loc) (s1 : State) :
  withdraw i amt s = Return l s1 ->
  safeInteger (balance (deref s l)) -> safeInteger amt ->
  exists s2,
    deposit i amt s1 = Return l s2
    /\ (forall l', deref s2 l' = deref s l')
    /\ this s2 = this s
    /\ accountsOf s2 = accountsOf s.
Proof.
  unfold deref. rewrite withdraw_unfold.
  destruct (find _ _) as [l0|] eqn:Hfind; [| discriminate].
  destruct (Z.leb_spec amt 0) as [Hle | Hpos]; [discriminate |].
  destruct (balance _ <? amt); [discriminate |].
  intros [= -> <-] _ _. rewrite deposit_unfold. simpl.
  rewrite find_after_write, Hfind, update_same. simpl.
  destruct (Z.leb_spec amt 0); [lia |].
  eexists. split; [reflexivity |].
  assert (Hall : forall l',
             update
               (update (store s) l
                  (mkAccount (id (store s l)) (balance (store s l) - amt)))
               l (mkAccount (id (store s l))
                    (balance (store s l) - amt + amt)) l'
             = store s l').
  { intros l'. rewrite Z.sub_add.
    rewrite <- (write_back (store s) l l'). unfold update.
    destruct (Nat.eqb l' l); reflexivity. }
  split; [exact Hall |]. split; [reflexivity |].
  apply accountsOf_pointwise; [reflexivity | exact Hall].
Qed.

Lemma withdraw_then_deposit_witness :
  exists s2,
    deposit 1234567890 5000
      (finalState (withdraw 1234567890 5000 Seed.bank))
    = Return 0%nat s2
    /\ accountsOf s2 = accountsOf Seed.bank.
Proof.
  destruct (withdraw_then_deposit Seed.bank 1234567890 5000 0%nat
              (finalState (withdraw 1234567890 5000 Seed.bank)) eq_refl
              ltac:(unfold safeInteger; simpl; lia)
              ltac:(unfold safeInteger; simpl; lia))
    as (s2 & Hd & _ & _ & Hsame).
  exists s2. split; assumption.
Defined.

(** X9: for an integer balance and amounts of magnitude at most 2^53
    whose sums are within the same range, two deposits to one id add
    up: they reach the same account object as a single deposit of the
    sum, and leave every account object as that single deposit does. *)
Theorem deposits_add_up
    (s : State) (i a b : number) (l l' : loc) (s1 s2 : State) :
  deposit i a s = Return l s1 ->
  deposit i b s1 = Return l' s2 ->
  safeInteger (balance (deref s l)) -> safeInteger a -> safeInteger b ->
  safeInteger (a + b) -> safeInteger (balance (deref s l) + a) ->
  safeInteger (balance (deref s l) + a + b) ->
  l' = l
  /\ exists s3,
      deposit i (a + b) s = Return l s3
      /\ (forall l0, deref s3 l0 = deref s2 l0)
      /\ this s3 = this s2.
Proof.
  unfold deref. rewrite !deposit_unfold.
  destruct (find _ _) as [l0|] eqn:Hfind; [| discriminate].
  destruct (Z.leb_spec a 0) as [Hle | Ha]; [discriminate |].
  intros [= -> <-]. simpl.
  rewrite find_after_write, Hfind, update_same. simpl.
  destruct (Z.leb_spec b 0) as [Hle | Hb]; [discriminate |].
  intros [= <- <-] _ _ _ _ _ _. split; [reflexivity |].
  destruct (Z.leb_spec (a + b) 0); [lia |].
  eexists. split; [reflexivity |]. simpl. split; [| reflexivity].
  intros l0. rewrite Z.add_assoc. unfold update.
  destruct (Nat.eqb l0 l); reflexivity.
Qed.

Lemma deposits_add_up_witness :
  exists s3,
    deposit 1234567890 (1000 + 500) Seed.bank = Return 0%nat s3
    /\ deref s3 0%nat = mkAccount 1234567890 6500.
Proof.
  destruct (deposits_add_up Seed.bank 1234567890 1000 500 0%nat 0%nat
              (finalState (deposit 1234567890 1000 Seed.bank))
              (finalState
                 ((deposit 1234567890 1000 ;; deposit 1234567890 500)
                    Seed.bank))
              eq_refl eq_refl
              ltac:(unfold safeInteger; simpl; lia)
              ltac:(unfold safeInteger; simpl; lia)
              ltac:(unfold safeInteger; simpl; lia)
              ltac:(unfold safeInteger; simpl; lia)
              ltac:(unfold safeInteger; simpl; lia)
              ltac:(unfold safeInteger; simpl; lia))
    as (_ & s3 & Hd & Hall & _).
  exists s3. split; [exact Hd |]. rewrite Hall. reflexivity.
Defined.


(** ** Lookups *)

Lemma find_decompose {A} (f : A -> bool) (xs : list A) (x : A) :
  find f xs = Some x ->
  exists pre rest,
    xs = pre ++ x :: rest /\ (forall y, In y pre -> f y = false) /\ f x = true.
Proof.
  induction xs as [|y ys IH]; simpl; [discriminate |].
  destruct (f y) eqn:Ey.
  - intros [= ->]. exists [], ys. repeat split; [intros ? [] | exact Ey].
  - intros Hf. destruct (IH Hf) as (pre & rest & -> & Hpre & Hx).
    exists (y :: pre), rest. repeat split; [| exact Hx].
    intros z [<- | Hz]; [exact Ey | now apply Hpre].
Qed.

(** X11: [findAccountById] changes nothing and answers with the first
    account of the array whose id is the one asked for: no entry before
    it has that id. It answers [undefined] exactly when no account of
    the collection has that id. *)
Theorem findAccountById_first (s : State) (i : number) :
  exists r,
    findAccountById i s = Return r s
    /\ (r = None <-> noAccount s i)
    /\ forall l,
        r = Some l ->
        id (deref s l) = i
        /\ exists pre rest,
            accounts (this s) = pre ++ l :: rest
            /\ forall l', In l' pre -> id (deref s l') <> i.
Proof.
  unfold findAccountById. eexists. split; [reflexivity |]. split.
  - apply find_noAccount.
  - intros l Hfind. apply find_decompose in Hfind
      as (pre & rest & Hlist & Hpre & Hl).
    apply Z.eqb_eq in Hl. split; [exact Hl |].
    exists pre, rest. split; [exact Hlist |].
    intros l' Hin. apply Z.eqb_neq. now apply Hpre.
Qed.

Lemma find_agree {A} (f g : A -> bool) (xs : list A) :
  (forall x, In x xs -> f x = g x) -> find f xs = find g xs.
Proof.
  induction xs as [|x xs IH]; intros Hfg; simpl; [reflexivity |].
  rewrite (Hfg x) by now left.
  destruct (g x); [reflexivity |]. apply IH.
  intros y Hy. apply Hfg. now right.
Qed.

Lemma find_snoc_false {A} (f : A -> bool) (xs : list A) (x : A) :
  f x = false -> find f (xs ++ [x]) = find f xs.
Proof.
  intros Hx. induction xs as [|y ys IH]; simpl.
  - now rewrite Hx.
  - destruct (f y); [reflexivity | exact IH].
Qed.

(** Writing the balance of an account of one id leaves the answer of
    [getBalance] for another id as it was. *)
Lemma getBalance_after_write
    (s : State) (l : loc) (v j : number) :
  id (store s l) <> j ->
  answer
    (getBalance j
       (mkState (update (store s) l (mkAccount (id (store s l)) v))
          (this s)))
  = answer (getBalance j s).
Proof.
  intros Hne. rewrite !getBalance_unfold. simpl.
  rewrite find_after_write.
  destruct (find _ _) as [l'|] eqn:Hfind; [| reflexivity]. simpl.
  apply find_some in Hfind as [_ Hid]. apply Z.eqb_eq in Hid.
  rewrite update_other; [reflexivity |]. intros ->. contradiction.
Qed.

(** X12: a call that names one id does not change what [getBalance]
    answers for any other id: the same balance, or the same error. *)
Theorem other_ids_unaffected (c : Call) (s : State) (j : number) :
  target c <> j ->
  answer (getBalance j (perform c s)) = answer (getBalance j s).
Proof.
  intros Hne. unfold perform, run.
  destruct c as [u a n | i amt | i amt | i]; simpl in Hne.
  - rewrite createAccount_unfold.
    destruct (isAccountNumberInvalid n); [reflexivity |].
    destruct (negb _); [reflexivity |].
    destruct (a <? 18); [reflexivity |].
    destruct (find _ _); [reflexivity |]. simpl.
    rewrite !getBalance_unfold. simpl.
    rewrite find_snoc_false
      by (rewrite update_same; simpl; now apply Z.eqb_neq).
    rewrite (find_agree _ (fun l => id (store s l) =? j)).
    + destruct (find _ _) as [l|] eqn:Hfind; [| reflexivity]. simpl.
      apply find_some in Hfind as [Hin _].
      rewrite update_other; [reflexivity |].
      intros ->. exact (freshLoc_notin _ Hin).
    + intros l Hin. rewrite update_other; [reflexivity |].
      intros ->. exact (freshLoc_notin _ Hin).
  - rewrite deposit_unfold.
    destruct (find _ _) as [l|] eqn:Hfind; [| reflexivity].
    destruct (amt <=? 0); [reflexivity |]. simpl.
    apply find_some in Hfind as [_ Hid]. apply Z.eqb_eq in Hid.
    apply getBalance_after_write. congruence.
  - rewrite withdraw_unfold.
    destruct (find _ _) as [l|] eqn:Hfind; [| reflexivity].
    destruct (amt <=? 0); [reflexivity |].
    destruct (balance _ <? amt); [reflexivity |]. simpl.
    apply find_some in Hfind as [_ Hid]. apply Z.eqb_eq in Hid.
    apply getBalance_after_write. congruence.
  - pose proof (getBalance_state s i) as Hs.
    destruct (getBalance i s); simpl in Hs |- *; now subst.
Qed.

Lemma other_ids_unaffected_witness :
  answer (getBalance 1234567891
            (perform (Withdraw 1234567890 5000) Seed.bank))
  = answer (getBalance 1234567891 Seed.bank).
Proof.
  apply (other_ids_unaffected (Withdraw 1234567890 5000) Seed.bank).
  discriminate.
Defined.

(** ** Traces of calls *)

Lemma perform_keeps_accounts (c : Call) (s : State) :
  (exists added,
      accounts (this (perform c s)) = accounts (this s) ++ added)
  /\ usernames (this (perform c s)) = usernames (this s)
  /\ forall l,
      In l (accounts (this s)) ->
      id (deref (perform c s) l) = id (deref s l).
Proof.
  unfold perform, run, deref.
  assert (Hsame : (exists added,
                      accounts (this s) = accounts (this s) ++ added)
                  /\ usernames (this s) = usernames (this s)
                  /\ forall l,
                      In l (accounts (this s)) ->
                      id (store s l) = id (store s l)).
  { split; [exists []; now rewrite app_nil_r | split; reflexivity]. }
  assert (Hwrite : forall l v,
             (exists added,
                 accounts (this s) = accounts (this s) ++ added)
             /\ usernames (this s) = usernames (this s)
             /\ forall l',
                 In l' (accounts (this s)) ->
                 id (update (store s) l (mkAccount (id (store s l)) v) l')
                 = id (store s l')).
  { intros l v. split; [exists []; now rewrite app_nil_r |].
    split; [reflexivity |]. intros l' _. apply update_id. }
  destruct c as [u a n | i amt | i amt | i].
  - rewrite createAccount_unfold.
    destruct (isAccountNumberInvalid n); [exact Hsame |].
    destruct (negb _); [exact Hsame |].
    destruct (a <? 18); [exact Hsame |].
    destruct (find _ _); [exact Hsame |]. simpl.
    split; [eexists; reflexivity |]. split; [reflexivity |].
    intros l Hin. rewrite update_other; [reflexivity |].
    intros ->. exact (freshLoc_notin _ Hin).
  - rewrite deposit_unfold.
    destruct (find _ _); [| exact Hsame].
    destruct (amt <=? 0); [exact Hsame | apply Hwrite].
  - rewrite withdraw_unfold.
    destruct (find _ _); [| exact Hsame].
    destruct (amt <=? 0); [exact Hsame |].
    destruct (balance _ <? amt); [exact Hsame | apply Hwrite].
  - rewrite getBalance_unfold. destruct (find _ _); exact Hsame.
Qed.

(** X13: whatever calls are made, no account leaves the collection or
    changes place (the array only grows at its end), no account changes
    its id, and the usernames stay as given. *)
Theorem trace_keeps_accounts (cs : list Call) (s : State) :
  (exists added,
      accounts (this (performAll cs s)) = accounts (this s) ++ added)
  /\ usernames (this (performAll cs s)) = usernames (this s)
  /\ forall l,
      In l (accounts (this s)) ->
      id (deref (performAll cs s) l) = id (deref s l).
Proof.
  revert s. induction cs as [|c cs IH]; intros s; simpl.
  - split; [exists []; now rewrite app_nil_r | split; reflexivity].
  - destruct (perform_keeps_accounts c s) as ((added1 & H1) & Hn1 & Hid1).
    destruct (IH (perform c s)) as ((added2 & H2) & Hn2 & Hid2).
    split; [| split].
    + exists (added1 ++ added2). now rewrite H2, H1, app_assoc.
    + now rewrite Hn2.
    + intros l Hin. rewrite Hid2, Hid1; [reflexivity | exact Hin |].
      rewrite H1. apply in_or_app. now left.
Qed.

(** ** The sum of the balances *)

Lemma fold_right_add_app (xs ys : list Z) :
  fold_right Z.add 0 (xs ++ ys)
  = fold_right Z.add 0 xs + fold_right Z.add 0 ys.
Proof. induction xs as [|x xs IH]; simpl; [reflexivity | lia]. Qed.

(** In an array that holds each object once, writing one balance moves
    the sum by the difference. *)
Lemma total_after_write (h : Store) (l : loc) (v : number) (ls : list loc) :
  NoDup ls -> In l ls ->
  fold_right Z.add 0
    (map balance (map (update h l (mkAccount (id (h l)) v)) ls))
  = fold_right Z.add 0 (map balance (map h ls)) - balance (h l) + v.
Proof.
  induction ls as [|x xs IH]; intros Hnd Hin; [destruct Hin |].
  inversion Hnd as [|? ? Hx Hxs]; subst. simpl.
  destruct Hin as [-> | Hin].
  - rewrite update_same, map_update_notin by exact Hx. simpl. lia.
  - rewrite update_other by (intros ->; contradiction).
    rewrite IH by assumption. lia.
Qed.

Lemma idsDistinct_NoDup (s : State) :
  idsDistinct s -> NoDup (accounts (this s)).
Proof.
  unfold idsDistinct, accountsOf. rewrite map_map.
  apply NoDup_map_inv.
Qed.

(** X14: when the ids of the collection are pairwise distinct, and for
    an integer balance and amount of magnitude at most 2^53 whose sum
    or difference is within the same range, a returning deposit raises
    the sum of all balances by exactly the amount and a returning
    withdrawal lowers it by exactly the amount; a returning
    [createAccount] leaves the sum as it was, distinct ids or not. *)
Theorem total_balance_moves_by_amount (s : State) :
  (idsDistinct s ->
   forall i amt l s',
     safeInteger amt -> safeInteger (balance (deref s l)) ->
     (deposit i amt s = Return l s' ->
      safeInteger (balance (deref s l) + amt) ->
      totalBalance s' = totalBalance s + amt)
     /\ (withdraw i amt s = Return l s' ->
         safeInteger (balance (deref s l) - amt) ->
         totalBalance s' = totalBalance s - amt))
  /\ (forall u age n l s',
        createAccount u age n s = Return l s' ->
        totalBalance s' = totalBalance s).
Proof.
  split.
  - intros Hd i amt l s' _ _. apply idsDistinct_NoDup in Hd.
    unfold totalBalance, accountsOf.
    rewrite deposit_unfold, withdraw_unfold.
    destruct (find _ _) as [l0|] eqn:Hfind;
      [| split; discriminate].
    apply find_some in Hfind as [Hin _].
    split.
    + destruct (amt <=? 0); [discriminate |].
      intros [= <- <-] _. simpl.
      rewrite total_after_write by assumption. lia.
    + destruct (amt <=? 0); [discriminate |].
      destruct (balance _ <? amt); [discriminate |].
      intros [= <- <-] _. simpl.
      rewrite total_after_write by assumption. lia.
  - intros u age n l s' H.
    apply createAccount_return_effect in H as (_ & _ & _ & Hall & _).
    unfold totalBalance. rewrite Hall, map_app, fold_right_add_app.
    simpl. lia.
Qed.

Lemma total_balance_moves_by_amount_witness :
  totalBalance (finalState (deposit 1234567890 1000 Seed.bank))
  = totalBalance Seed.bank + 1000.
Proof.
  destruct (total_balance_moves_by_amount Seed.bank) as [Hmove _].
  apply (proj1 (Hmove (proj2 (proj2 seed_dataModelInvariant))
                  1234567890 1000 0%nat
                  (finalState (deposit 1234567890 1000 Seed.bank))
                  ltac:(unfold safeInteger; simpl; lia)
                  ltac:(unfold safeInteger; simpl; lia)));
    [reflexivity | unfold safeInteger; simpl; lia].
Defined.

(** An object listed twice counts twice: the sum moves by twice the
    amount. *)
Example total_with_object_listed_twice :
  totalBalance (finalState (deposit 1234567890 60 Unvalidated.listedTwice))
  = totalBalance Unvalidated.listedTwice + 2 * 60.
Proof. vm_compute. reflexivity. Qed.


(** ** The test script *)

Section ScriptLines.

Import Tests.
Local Open Scope script_scope.

Lemma printsLines_log (line : string) : printsLines 1 (log line).
Proof. intros w. exists [line], (bankOf w). split; reflexivity. Qed.

Lemma printsLines_if (b : bool) (n : nat) (p q : Script unit) :
  printsLines n p -> printsLines n q -> printsLines n (if b then p else q).
Proof. destruct b; auto. Qed.

Lemma printsLines_seq (n m : nat) (p q : Script unit) :
  printsLines n p -> printsLines m q -> printsLines (n + m) (p ;; q).
Proof.
  intros Hp Hq w. unfold andThen.
  destruct (Hp w) as (lines1 & s1 & -> & <-).
  destruct (Hq (mkWorld s1 (console w ++ lines1))) as (lines2 & s2 & -> & <-).
  exists (lines1 ++ lines2), s2. simpl.
  now rewrite <- app_assoc, length_app.
Qed.

Lemma printsLines_field (n : nat) (f : AccountType -> number) (l : loc)
    (k : number -> Script unit) :
  (forall v, printsLines n (k v)) -> printsLines n (v <- field f l ;; k v).
Proof.
  intros Hk w. unfold andThen, field.
  destruct (Hk (f (store (bankOf w) l)) w) as (lines & s' & -> & <-).
  now exists lines, s'.
Qed.

(** A scenario: a call inside [try], a verdict after it and a verdict in
    the handler. Whatever the call does, one line is printed. *)
Lemma printsLines_scenario {A} (m : M A) (body : A -> Script unit)
    (handler : Error -> Script unit) :
  (forall a, printsLines 1 (body a)) ->
  (forall e, printsLines 1 (handler e)) ->
  printsLines 1 (tryCatch (a <- call m ;; body a) handler).
Proof.
  intros Hbody Hhandler w. unfold tryCatch, andThen, call.
  destruct (m (bankOf w)) as [a s | e s].
  - destruct (Hbody a (mkWorld s (console w))) as (lines & s' & -> & <-).
    now exists lines, s'.
  - destruct (Hhandler e (mkWorld s (console w))) as (lines & s' & -> & <-).
    now exists lines, s'.
Qed.

Lemma depositTests_lines : printsLines 4 depositTests.
Proof.
  unfold depositTests.
  repeat (apply (printsLines_seq 1); [try apply printsLines_log |]);
    repeat (apply printsLines_scenario; intros);
    repeat (apply printsLines_field; intros);
    repeat apply printsLines_if; apply printsLines_log.
Qed.

Lemma withdrawalTests_lines : printsLines 4 withdrawalTests.
Proof.
  unfold withdrawalTests.
  repeat (apply (printsLines_seq 1); [try apply printsLines_log |]);
    repeat (apply printsLines_scenario; intros);
    repeat (apply printsLines_field; intros);
    repeat apply printsLines_if; apply printsLines_log.
Qed.

Lemma balanceCheckTests_lines : printsLines 3 balanceCheckTests.
Proof.
  unfold balanceCheckTests.
  repeat (apply (printsLines_seq 1); [try apply printsLines_log |]);
    repeat (apply printsLines_scenario; intros);
    repeat apply printsLines_if; apply printsLines_log.
Qed.

Lemma afterFirstAccount_lines (acc : loc) :
  printsLines 4 (afterFirstAccount acc).
Proof.
  unfold afterFirstAccount.
  do 2 (apply printsLines_field; intros).
  apply (printsLines_seq 1 3);
    [apply printsLines_if; apply printsLines_log |].
  repeat (apply (printsLines_seq 1));
    apply printsLines_scenario; intros; apply printsLines_log.
Qed.

Lemma andThen_Normal {A B} (p : Script A) (k : A -> Script B)
    (w w' : World) (a : A) :
  p w = Normal a w' -> (x <- p ;; k x) w = k a w'.
Proof. intros H. unfold andThen. now rewrite H. Qed.

Lemma andThen_Uncaught {A B} (p : Script A) (k : A -> Script B)
    (w w' : World) (e : Error) :
  p w = Uncaught e w' -> (x <- p ;; k x) w = Uncaught e w'.
Proof. intros H. unfold andThen. now rewrite H. Qed.

(** X17: the only call of the script outside a [try] is the first
    [createAccount]. From every state of the bank: if that call throws,
    the script stops there with the error uncaught, having printed the
    first heading only; if it returns, the script runs to its end and
    prints exactly sixteen lines, one per heading and one per
    scenario. *)
Theorem scenarios_outcome (w : World) :
  (forall e s,
      createAccount "user1" 20 1234567892 (bankOf w) = Throw e s ->
      scenarios w
      = Uncaught e (mkWorld s (console w ++ ["Testing Account Creation:"])))
  /\ (forall l s,
        createAccount "user1" 20 1234567892 (bankOf w) = Return l s ->
        exists lines s',
          scenarios w = Normal tt (mkWorld s' (console w ++ lines))
          /\ List.length lines = 16%nat).
Proof.
  pose (w1 := mkWorld (bankOf w) (console w ++ ["Testing Account Creation:"])).
  assert (Hlog : log "Testing Account Creation:" w = Normal tt w1)
    by reflexivity.
  split.
  - intros e s H. unfold scenarios.
    apply andThen_Uncaught. unfold accountCreationTests.
    rewrite (andThen_Normal _ _ _ _ _ Hlog).
    apply andThen_Uncaught. unfold call, w1. simpl. now rewrite H.
  - intros l s H.
    pose (w2 := mkWorld s (console w ++ ["Testing Account Creation:"])).
    assert (Hcall : call (createAccount "user1" 20 1234567892) w1
                    = Normal l w2)
      by (unfold call, w1; simpl; now rewrite H).
    destruct (afterFirstAccount_lines l w2) as (lines1 & s1 & Hrun1 & Hlen1).
    assert (Hafter : printsLines 11
                       (depositTests ;; withdrawalTests ;; balanceCheckTests)).
    { apply (printsLines_seq 4 7); [apply depositTests_lines |].
      apply (printsLines_seq 4 3);
        [apply withdrawalTests_lines | apply balanceCheckTests_lines]. }
    destruct (Hafter (mkWorld s1 (console w2 ++ lines1)))
      as (lines2 & s2 & Hrun2 & Hlen2).
    exists ("Testing Account Creation:" :: lines1 ++ lines2), s2. split.
    + unfold scenarios.
      rewrite (andThen_Normal accountCreationTests _ w
                 (mkWorld s1 (console w2 ++ lines1)) tt).
      * rewrite Hrun2. unfold w2. simpl. f_equal. f_equal.
        now rewrite <- !app_assoc.
      * unfold accountCreationTests.
        rewrite (andThen_Normal _ _ _ _ _ Hlog).
        rewrite (andThen_Normal _ _ _ _ _ Hcall). exact Hrun1.
    + simpl. rewrite length_app, Hlen1, Hlen2. reflexivity.
Qed.

Lemma scenarios_outcome_witness :
  exists lines s',
    scenarios (mkWorld Seed.bank [])
    = Normal tt (mkWorld s' ([] ++ lines))
    /\ List.length lines = 16%nat.
Proof.
  apply (proj2 (scenarios_outcome (mkWorld Seed.bank [])) 2%nat
           (finalState (createAccount "user1" 20 1234567892 Seed.bank))).
  reflexivity.
Defined.

(** X18: run on its own data, the script ends without an uncaught
    error and prints these sixteen lines: every scenario passes. *)
Theorem bankTests_all_pass :
  uncaught bankTests = None
  /\ printed bankTests
     = [ "Testing Account Creation:";
         "Account Creation Scenario 1.1 passed";
         "Account Creation Scenario 1.2 passed";
         "Account Creation Scenario 2 passed";
         "Account Creation Scenario 3 passed";
         afterBlankLine "Testing Deposit:";
         "Deposit Scenario 1 passed";
         "Deposit Scenario 2 passed";
         "Deposit Scenario 3 passed";
         afterBlankLine "Testing Withdrawal:";
         "Withdrawal Scenario 1 passed";
         "Withdrawal Scenario 2 passed";
         "Withdrawal Scenario 3 passed";
         afterBlankLine "Testing Balance Check:";
         "Balance Check Scenario 1 passed";
         "Balance Check Scenario 2 passed" ]
  /\ existsb reportsFailure (printed bankTests) = false.
Proof. repeat split; vm_compute; reflexivity. Qed.

End ScriptLines.

(** * The class over binary64 numbers *)

Section Binary64Facts.

Import Binary64.
Local Open Scope float_scope.
Local Open Scope binary64_scope.

(** ** The store and the calls, one branch at a time *)

Lemma update_same_binary64 (h : Store) (l : loc) (v : AccountType) :
  update h l v l = v.
Proof. unfold update. now rewrite Nat.eqb_refl. Qed.

Lemma update_other_binary64 (h : Store) (l l' : loc) (v : AccountType) :
  l' <> l -> update h l v l' = h l'.
Proof.
  intros Hne. unfold update.
  destruct (Nat.eqb_spec l' l); [contradiction | reflexivity].
Qed.

Lemma update_id_binary64 (h : Store) (l l' : loc) (v : number) :
  id (update h l (mkAccount (id (h l)) v) l') = id (h l').
Proof.
  unfold update. destruct (Nat.eqb_spec l' l); [subst |]; reflexivity.
Qed.

Lemma find_after_write_binary64 (h : Store) (l : loc) (v i : number)
    (ls : list loc) :
  find (fun l' => id (update h l (mkAccount (id (h l)) v) l') =? i) ls
  = find (fun l' => id (h l') =? i) ls.
Proof. apply find_pointwise. intros l'. now rewrite update_id_binary64. Qed.

Lemma findAccountById_unfold_binary64 (s : State) (i : number)
    (r : option loc) :
  findAccountById i s = Return r s <->
  find (fun l => id (store s l) =? i) (accounts (this s)) = r.
Proof.
  unfold findAccountById. split; [now intros [= ->] | now intros ->].
Qed.

Lemma deposit_unfold_binary64 (s : State) (i amt : number) :
  deposit i amt s =
  match find (fun l => id (store s l) =? i) (accounts (this s)) with
  | None => Throw (mkError "Account not found") s
  | Some l =>
      if amt <=? 0 then Throw (mkError "Invalid deposit amount") s
      else Return l
             (mkState
                (update (store s) l
                   (mkAccount (id (store s l)) (balance (store s l) + amt)))
                (this s))
  end.
Proof.
  unfold deposit, bind, when_, throw, ret, findAccountById, readBalance,
    writeBalance.
  destruct (find _ _); [| reflexivity].
  destruct (amt <=? 0); reflexivity.
Qed.

Lemma withdraw_unfold_binary64 (s : State) (i amt : number) :
  withdraw i amt s =
  match find (fun l => id (store s l) =? i) (accounts (this s)) with
  | None => Throw (mkError "Account not found") s
  | Some l =>
      if amt <=? 0 then Throw (mkError "Invalid withdrawal amount") s
      else if balance (store s l) <? amt
      then Throw (mkError "Insufficient funds") s
      else Return l
             (mkState
                (update (store s) l
                   (mkAccount (id (store s l)) (balance (store s l) - amt)))
                (this s))
  end.
Proof.
  unfold withdraw, bind, when_, throw, ret, findAccountById, readBalance,
    writeBalance.
  destruct (find _ _); [| reflexivity].
  destruct (amt <=? 0); [reflexivity |].
  destruct (balance _ <? amt); reflexivity.
Qed.

Lemma getBalance_unfold_binary64 (s : State) (i : number) :
  getBalance i s =
  match find (fun l => id (store s l) =? i) (accounts (this s)) with
  | None => Throw (mkError "Account not found") s
  | Some l => Return (balance (store s l)) s
  end.
Proof.
  unfold getBalance, bind, throw, findAccountById, readBalance.
  destruct (find _ _); reflexivity.
Qed.

Lemma createAccount_unfold_binary64 (toString : number -> string)
    (s : State) (u : string) (age n : number) :
  createAccount toString u age n s =
  if isAccountNumberInvalid toString n
  then Throw (mkError "Invalid account number") s
  else if negb (existsb (String.eqb u) (usernames (this s)))
  then Throw (mkError "User not found") s
  else if age <? 18 then Throw (mkError "User is under 18") s
  else match find (fun l => id (store s l) =? n) (accounts (this s)) with
       | Some _ => Throw (mkError "Account already exists") s
       | None =>
           Return (freshLoc (accounts (this s)))
             (mkState
                (update (store s) (freshLoc (accounts (this s)))
                   (mkAccount n 0))
                (mkBank (accounts (this s) ++ [freshLoc (accounts (this s))])
                   (usernames (this s))))
       end.
Proof.
  unfold createAccount, bind, when_, throw, ret, isUsernameExisits,
    findAccountById, newObject, push.
  destruct (isAccountNumberInvalid toString n); [reflexivity |].
  destruct (existsb _ _); simpl; [| reflexivity].
  destruct (age <? 18); [reflexivity |].
  destruct (find _ _); reflexivity.
Qed.

Lemma write_balanceWritten (s : State) (l : loc) (v : number) :
  In l (accounts (this s)) ->
  balanceWritten s
    (mkState (update (store s) l (mkAccount (id (store s l)) v)) (this s))
    l v.
Proof.
  intros Hin. unfold balanceWritten, deref. simpl.
  rewrite update_same_binary64. repeat split; try assumption.
  intros l' Hne. now apply update_other_binary64.
Qed.

Lemma getBalance_written (s : State) (i v : number) (l : loc) :
  find (fun l' => id (store s l') =? i) (accounts (this s)) = Some l ->
  getBalance i
    (mkState (update (store s) l (mkAccount (id (store s l)) v)) (this s))
  = Return v
      (mkState (update (store s) l (mkAccount (id (store s l)) v)) (this s)).
Proof.
  intros Hfind. rewrite getBalance_unfold_binary64. simpl.
  now rewrite find_after_write_binary64, Hfind, update_same_binary64.
Qed.

(** ** Deposits and withdrawals in binary64 arithmetic *)

(** C5, as the code has it: a deposit that returns has assigned the
    binary64 sum [balance + amt] to the balance of the account object
    it returns, the first account of the collection whose id [===] the
    one given; a withdrawal that returns has assigned the binary64
    difference [balance - amt]. No other object and no field of the
    instance is written, and [getBalance] then returns the assigned
    value. *)
Theorem deposit_withdraw_binary64
    (s : State) (i amt : number) (l : loc) (s' : State) :
  (deposit i amt s = Return l s' ->
   findAccountById i s = Return (Some l) s
   /\ (id (deref s l) =? i) = true
   /\ (amt <=? 0) = false
   /\ balanceWritten s s' l (balance (deref s l) + amt)
   /\ getBalance i s' = Return (balance (deref s l) + amt) s')
  /\ (withdraw i amt s = Return l s' ->
      findAccountById i s = Return (Some l) s
      /\ (id (deref s l) =? i) = true
      /\ (amt <=? 0) = false
      /\ (balance (deref s l) <? amt) = false
      /\ balanceWritten s s' l (balance (deref s l) - amt)
      /\ getBalance i s' = Return (balance (deref s l) - amt) s').
Proof.
  unfold deref. split.
  - rewrite deposit_unfold_binary64.
    destruct (find _ _) as [l0|] eqn:Hfind; [| discriminate].
    destruct (amt <=? 0) eqn:Hamt; [discriminate |].
    intros [= -> <-].
    pose proof (find_some _ _ Hfind) as [Hin Hid]. simpl in Hid.
    split; [now apply findAccountById_unfold_binary64 |].
    split; [exact Hid |]. split; [reflexivity |].
    split; [now apply write_balanceWritten | now apply getBalance_written].
  - rewrite withdraw_unfold_binary64.
    destruct (find _ _) as [l0|] eqn:Hfind; [| discriminate].
    destruct (amt <=? 0) eqn:Hamt; [discriminate |].
    destruct (balance _ <? amt) eqn:Hlow; [discriminate |].
    intros [= -> <-].
    pose proof (find_some _ _ Hfind) as [Hin Hid]. simpl in Hid.
    split; [now apply findAccountById_unfold_binary64 |].
    split; [exact Hid |]. split; [reflexivity |]. split; [exact Hlow |].
    split; [now apply write_balanceWritten | now apply getBalance_written].
Qed.

Lemma deposit_withdraw_binary64_witness :
  balanceWritten seed (finalState (deposit 1234567890 1000 seed)) 0%nat 6000
  /\ balanceWritten seed (finalState (withdraw 1234567891 1000 seed)) 1%nat
       9000.
Proof.
  split.
  - apply (proj1 (deposit_withdraw_binary64 seed 1234567890 1000 0%nat
                    (finalState (deposit 1234567890 1000 seed))) eq_refl).
  - apply (proj2 (deposit_withdraw_binary64 seed 1234567891 1000 1%nat
                    (finalState (withdraw 1234567891 1000 seed))) eq_refl).
Defined.

(** C5 as stated fails at a balance of 2^53: a deposit of 1 returns,
    and the balance it leaves is 2^53, not 2^53 + 1. *)
Lemma deposit_of_one_at_2_53 :
  exists s',
    deposit 1234567890 1 large = Return 0%nat s'
    /\ integerValue (balance (deref large 0%nat)) = Some 9007199254740992%Z
    /\ integerValue 1 = Some 1%Z
    /\ integerValue (balance (deref s' 0%nat)) = Some 9007199254740992%Z.
Proof.
  eexists. split; [vm_compute; reflexivity |].
  repeat split; vm_compute; reflexivity.
Qed.

(** ** Atomicity *)







Lemma createAccount_returns_binary64 (toString : number -> string)
    (s : State) (u : string) (age n : number) :
  (exists l s', createAccount toString u age n s = Return l s') <->
  isAccountNumberInvalid toString n = false
  /\ In u (usernames (this s))
  /\ (age <? 18) = false
  /\ findAccountById n s = Return None s.
Proof.
  rewrite createAccount_unfold_binary64, findAccountById_unfold_binary64.
  destruct (isAccountNumberInvalid toString n).
  { split; [intros (l & s' & H) | intros (H & _)]; discriminate. }
  destruct (existsb _ _) eqn:Hu; simpl.
  2: { split; [intros (l & s' & H); discriminate |].
       intros (_ & Hin & _). exfalso.
       assert (existsb (String.eqb u) (usernames (this s)) = true)
         by (apply existsb_exists; exists u; split;
             [exact Hin | apply String.eqb_refl]).
       congruence. }
  apply existsb_exists in Hu as (x & Hin & Heq).
  apply String.eqb_eq in Heq. subst x.
  destruct (age <? 18).
  { split; [intros (l & s' & H) | intros (_ & _ & H & _)]; discriminate. }
  destruct (find _ _) as [l0|].
  { split; [intros (l & s' & H) | intros (_ & _ & _ & H)]; discriminate. }
  split; [intros _; repeat split; assumption | intros _; eauto].
Qed.

Lemma createAccount_effect_binary64 (toString : number -> string)
    (s : State) (u : string) (age n : number) (l : loc) (s' : State) :
  createAccount toString u age n s = Return l s' -> accountAdded s s' l n.
Proof.
  rewrite createAccount_unfold_binary64.
  destruct (isAccountNumberInvalid toString n); [discriminate |].
  destruct (negb _); [discriminate |].
  destruct (age <? 18); [discriminate |].
  destruct (find _ _); [discriminate |].
  intros [= <- <-]. unfold accountAdded, deref. simpl.
  split; [apply freshLoc_notin |]. split; [reflexivity |].
  split; [reflexivity |]. split; [apply update_same_binary64 |].
  intros l' Hne. now apply update_other_binary64.
Qed.






(** ** Comparisons with NaN and with zero *)

Lemma Prim2SF_nan (x : number) : Prim2SF x = S754_nan -> x = nan.
Proof.
  intros H. rewrite <- (SF2Prim_Prim2SF x), H. reflexivity.
Qed.

(** Nothing is below NaN. *)
Lemma ltb_nan_r (x : number) : (x <? nan) = false.
Proof.
  rewrite ltb_spec. change (Prim2SF nan) with S754_nan.
  destruct (Prim2SF x); reflexivity.
Qed.

(** A value that is not NaN and not [<= 0] is above every value that
    is [<= 0]. *)
Lemma ltb_of_leb_zero (b x : number) :
  (b <=? 0) = true -> (x <=? 0) = false -> x <> nan -> (b <? x) = true.
Proof.
  rewrite !leb_spec, ltb_spec. change (Prim2SF 0) with (S754_zero false).
  intros Hb Hx Hnan.
  assert (Hx' : Prim2SF x <> S754_nan)
    by (intros H; apply Hnan, Prim2SF_nan, H).
  destruct (Prim2SF b) as [sb | sb | | sb mb eb];
    destruct (Prim2SF x) as [sx | sx | | sx mx ex];
    try destruct sb; try destruct sx;
    simpl in *;
    first [reflexivity | discriminate | contradiction Hx'; reflexivity].
Qed.

Lemma add_nan_r (x : number) : x + nan = nan.
Proof.
  apply Prim2SF_inj. rewrite add_spec. change (Prim2SF nan) with S754_nan.
  destruct (Prim2SF x); reflexivity.
Qed.

Lemma sub_nan_r (x : number) : x - nan = nan.
Proof.
  apply Prim2SF_inj. rewrite sub_spec. change (Prim2SF nan) with S754_nan.
  destruct (Prim2SF x); reflexivity.
Qed.

(** ** NaN as an amount *)

(** X20: NaN passes the amount tests, which compare with [<=] and [<]:
    on an id that has an account, a deposit of NaN and a withdrawal of
    NaN both return, whatever the balance, and leave the balance of
    that account NaN; [getBalance] then returns NaN. *)
Theorem nan_amount_goes_through (s : State) (i b : number) :
  getBalance i s = Return b s ->
  (exists l s',
      deposit i nan s = Return l s'
      /\ balanceWritten s s' l nan
      /\ getBalance i s' = Return nan s')
  /\ (exists l s',
        withdraw i nan s = Return l s'
        /\ balanceWritten s s' l nan
        /\ getBalance i s' = Return nan s').
Proof.
  rewrite getBalance_unfold_binary64.
  destruct (find _ _) as [l|] eqn:Hfind; [| discriminate]. intros _.
  pose proof (find_some _ _ Hfind) as [Hin _].
  rewrite deposit_unfold_binary64, withdraw_unfold_binary64, Hfind.
  rewrite ltb_nan_r. change (nan <=? 0) with false.
  rewrite add_nan_r, sub_nan_r.
  split; exists l; eexists; (split; [reflexivity |]);
    (split; [now apply write_balanceWritten | now apply getBalance_written]).
Qed.

Lemma nan_amount_goes_through_witness :
  exists l s',
    deposit 1234567890 nan seed = Return l s'
    /\ balanceWritten seed s' l nan
    /\ getBalance 1234567890 s' = Return nan s'.
Proof.
  apply (proj1 (nan_amount_goes_through seed 1234567890 5000 eq_refl)).
Defined.

(** ** A created account in the calls that follow *)

Lemma find_created_binary64 (toString : number -> string)
    (s : State) (u : string) (age n : number) (l : loc) (s' : State) :
  createAccount toString u age n s = Return l s' -> (n =? n) = true ->
  find (fun l' => id (store s' l') =? n) (accounts (this s')) = Some l.
Proof.
  intros H Hn.
  assert (Hnone : findAccountById n s = Return None s).
  { apply (createAccount_returns_binary64 toString s u age n). eauto. }
  apply findAccountById_unfold_binary64 in Hnone.
  apply createAccount_effect_binary64 in H
    as (Hfresh & Hpush & _ & Hnew & Hothers).
  unfold deref in *. rewrite Hpush. apply find_last.
  - intros l' Hin. rewrite Hothers by (intros ->; contradiction).
    exact (find_none _ _ Hnone l' Hin).
  - rewrite Hnew. exact Hn.
Qed.

(** X4: the account a [createAccount] returned (for a number that is
    not NaN) is the one the later calls find under its id: [getBalance]
    returns 0; a deposit that passes the amount test returns that same
    object and assigns it the binary64 sum [0 + amount]; every
    withdrawal of an amount that is not NaN is refused; a withdrawal of
    NaN passes both comparisons, returns and leaves the balance NaN. *)
Theorem created_account_binary64 (toString : number -> string)
    (s : State) (u : string) (age n : number) (l : loc) (s' : State) :
  createAccount toString u age n s = Return l s' -> (n =? n) = true ->
  getBalance n s' = Return 0 s'
  /\ (forall amt,
        (amt <=? 0) = false ->
        exists s'',
          deposit n amt s' = Return l s''
          /\ deref s'' l = mkAccount n (0 + amt))
  /\ (forall amt,
        amt <> nan ->
        failsWith (withdraw n amt s')
          (if amt <=? 0 then InvalidAmount else InsufficientFunds) s')
  /\ exists s'',
      withdraw n nan s' = Return l s'' /\ deref s'' l = mkAccount n nan.
Proof.
  intros H Hn.
  pose proof (find_created_binary64 _ _ _ _ _ _ _ H Hn) as Hfind.
  apply createAccount_effect_binary64 in H as (_ & _ & _ & Hnew & _).
  unfold deref in *.
  rewrite getBalance_unfold_binary64, Hfind, Hnew.
  split; [reflexivity |]. split; [| split].
  - intros amt Hamt. rewrite deposit_unfold_binary64, Hfind, Hamt, Hnew.
    eexists. split; [reflexivity |]. simpl. apply update_same_binary64.
  - intros amt Hnan. rewrite withdraw_unfold_binary64, Hfind, Hnew. simpl.
    destruct (amt <=? 0) eqn:Hamt.
    + eexists. split; reflexivity.
    + rewrite (ltb_of_leb_zero 0 amt eq_refl Hamt Hnan).
      eexists. split; reflexivity.
  - rewrite withdraw_unfold_binary64, Hfind, Hnew. simpl.
    eexists. split; [reflexivity |]. simpl. apply update_same_binary64.
Qed.

Lemma created_account_binary64_witness :
  getBalance 1234567892
    (finalState (createAccount integerToString "user1" 20 1234567892 seed))
  = Return 0
      (finalState (createAccount integerToString "user1" 20 1234567892 seed)).
Proof.
  apply (created_account_binary64 integerToString seed "user1" 20
           1234567892 2%nat); reflexivity.
Defined.

(** X10: an account whose balance is [<= 0] cannot be withdrawn from
    with any amount that is a number: the call throws and changes
    nothing. With NaN as the amount both comparisons are false and the
    call returns. *)
Theorem withdraw_needs_funds_binary64 (s : State) (i b : number) :
  getBalance i s = Return b s -> (b <=? 0) = true ->
  (forall amt,
      amt <> nan ->
      failsWith (withdraw i amt s)
        (if amt <=? 0 then InvalidAmount else InsufficientFunds) s)
  /\ exists l s', withdraw i nan s = Return l s'.
Proof.
  rewrite getBalance_unfold_binary64.
  destruct (find _ _) as [l|] eqn:Hfind; [| discriminate].
  intros [= <-] Hb. split.
  - intros amt Hnan. rewrite withdraw_unfold_binary64, Hfind.
    destruct (amt <=? 0) eqn:Hamt.
    + eexists. split; reflexivity.
    + rewrite (ltb_of_leb_zero _ amt Hb Hamt Hnan).
      eexists. split; reflexivity.
  - rewrite withdraw_unfold_binary64, Hfind, ltb_nan_r.
    change (nan <=? 0) with false. eauto.
Qed.

Lemma withdraw_needs_funds_binary64_witness :
  failsWith
    (withdraw 1234567892 1
       (finalState (createAccount integerToString "user1" 20 1234567892 seed)))
    InsufficientFunds
    (finalState (createAccount integerToString "user1" 20 1234567892 seed)).
Proof.
  apply (proj1 (withdraw_needs_funds_binary64
                  (finalState
                     (createAccount integerToString "user1" 20 1234567892
                        seed))
                  1234567892 0 eq_refl eq_refl) 1).
  discriminate.
Defined.

(** ** The ids along a trace *)

Lemma ForallOrdPairs_map {A B} (R : B -> B -> Prop) (f : A -> B)
    (xs : list A) :
  ForallOrdPairs R (map f xs) <->
  ForallOrdPairs (fun x y => R (f x) (f y)) xs.
Proof.
  induction xs as [|x xs IH]; simpl.
  - split; intros _; constructor.
  - split; intros H; inversion H as [|? ? Hx Hxs]; subst; constructor.
    + now rewrite Forall_map in Hx.
    + now apply IH.
    + now rewrite Forall_map.
    + now apply IH.
Qed.

Lemma ForallOrdPairs_snoc {A} (R : A -> A -> Prop) (xs : list A) (x : A) :
  ForallOrdPairs R xs -> Forall (fun y => R y x) xs ->
  ForallOrdPairs R (xs ++ [x]).
Proof.
  induction xs as [|y ys IH]; intros Hp Hx; simpl.
  - constructor; constructor.
  - inversion Hp as [|? ? Hy Hys]; subst.
    inversion Hx as [|? ? Hyx Hysx]; subst. constructor.
    + apply Forall_app. split; [exact Hy | now constructor].
    + now apply IH.
Qed.

Lemma ids_after_write_binary64 (s : State) (l : loc) (v : number) :
  map id (accountsOf
            (mkState (update (store s) l (mkAccount (id (store s l)) v))
               (this s)))
  = map id (accountsOf s).
Proof.
  unfold accountsOf. simpl. rewrite !map_map.
  apply map_ext. intros l'. apply update_id_binary64.
Qed.

Lemma accountsOf_after_create_binary64 (s : State) (n : number) :
  accountsOf
    (mkState
       (update (store s) (freshLoc (accounts (this s))) (mkAccount n 0))
       (mkBank (accounts (this s) ++ [freshLoc (accounts (this s))])
          (usernames (this s))))
  = accountsOf s ++ [mkAccount n 0].
Proof.
  unfold accountsOf. simpl. rewrite map_app. simpl.
  rewrite update_same_binary64. f_equal.
  apply map_ext_in. intros l Hin. apply update_other_binary64.
  intros ->. exact (freshLoc_notin _ Hin).
Qed.

(** The two properties of the ids, read off the list of ids. *)
Lemma ids_properties_by_list (toString : number -> string) (s : State) :
  (idsAccepted toString s <->
   Forall (fun i => isAccountNumberInvalid toString i = false)
     (map id (accountsOf s)))
  /\ (idsDistinct s <->
      ForallOrdPairs (fun i j => (i =? j) = false) (map id (accountsOf s))).
Proof.
  unfold idsAccepted, idsDistinct.
  rewrite Forall_map, ForallOrdPairs_map. split; reflexivity.
Qed.

Lemma perform_keeps_ids_binary64 (toString : number -> string) (c : Call)
    (s : State) :
  idsAccepted toString s /\ idsDistinct s ->
  idsAccepted toString (perform toString c s)
  /\ idsDistinct (perform toString c s).
Proof.
  intros Hinv.
  assert (Hwrite : forall l v,
             idsAccepted toString
               (mkState (update (store s) l (mkAccount (id (store s l)) v))
                  (this s))
             /\ idsDistinct
                  (mkState
                     (update (store s) l (mkAccount (id (store s l)) v))
                     (this s))).
  { intros l v. destruct Hinv as [Ha Hd].
    apply (ids_properties_by_list toString) in Ha.
    apply (ids_properties_by_list toString) in Hd.
    split; apply (ids_properties_by_list toString);
      now rewrite ids_after_write_binary64. }
  unfold perform, run. destruct c as [u a n | i amt | i amt | i].
  - rewrite createAccount_unfold_binary64.
    destruct (isAccountNumberInvalid toString n) eqn:Hvalid; [exact Hinv |].
    destruct (negb _); [exact Hinv |].
    destruct (a <? 18); [exact Hinv |].
    destruct (find _ _) eqn:Hfind; [exact Hinv |]. simpl.
    destruct Hinv as [Ha Hd]. unfold idsAccepted, idsDistinct in *.
    rewrite accountsOf_after_create_binary64. split.
    + apply Forall_app. split; [exact Ha |]. now repeat constructor.
    + apply ForallOrdPairs_snoc; [exact Hd |].
      unfold accountsOf. rewrite Forall_map, Forall_forall.
      intros l Hin. simpl. exact (find_none _ _ Hfind l Hin).
  - rewrite deposit_unfold_binary64.
    destruct (find _ _); [| exact Hinv].
    destruct (amt <=? 0); [exact Hinv | apply Hwrite].
  - rewrite withdraw_unfold_binary64.
    destruct (find _ _); [| exact Hinv].
    destruct (amt <=? 0); [exact Hinv |].
    destruct (balance _ <? amt); [exact Hinv | apply Hwrite].
  - rewrite getBalance_unfold_binary64. destruct (find _ _); exact Hinv.
Qed.

(** X15: through every sequence of calls, with any binary64 arguments
    (NaN and the infinities included), every id of the collection
    still passes the string-length test of [createAccount], and no
    account has an id that [===] the id of an account after it. *)
Theorem ids_along_traces_binary64 (toString : number -> string)
    (cs : list Call) (s : State) :
  idsAccepted toString s -> idsDistinct s ->
  idsAccepted toString (performAll toString cs s)
  /\ idsDistinct (performAll toString cs s).
Proof.
  revert s. induction cs as [|c cs IH]; intros s Ha Hd; simpl.
  - split; assumption.
  - destruct (perform_keeps_ids_binary64 toString c s (conj Ha Hd))
      as [Ha' Hd'].
    now apply IH.
Qed.

Lemma ids_along_traces_binary64_witness :
  idsDistinct
    (performAll integerToString
       [CreateAccount "user1" 20 1234567892; Deposit 1234567892 nan;
        CreateAccount "user2" 30 1234567892; Withdraw 1234567890 infinity]
       seed).
Proof.
  apply (ids_along_traces_binary64 integerToString
           [CreateAccount "user1" 20 1234567892; Deposit 1234567892 nan;
            CreateAccount "user2" 30 1234567892;
            Withdraw 1234567890 infinity]
           seed).
  - repeat constructor.
  - repeat constructor.
Defined.

End Binary64Facts.
